(** * AnonymousMentalHealth: a shallow embedding of the contract

    The contract is the Solidity source appended to
    [base-template/scripts/deploy.ts] ([contract AnonymousMentalHealth]).
    Unsigned integers are [N]; Solidity 0.8 checked arithmetic is written
    out (an overflow is [Panic 0x11]).  Mappings are [gmap]s read with the
    zero value as default.  External functions are computations in a small
    state, log and revert monad; [transact] runs one of them as a
    transaction and rolls the storage back when it reverts. *)

From Stdlib Require Import NArith String List Bool Lia.
From stdpp Require Import gmap.
Import ListNotations.

Local Open Scope N_scope.

(** ** Value types *)

Definition address := N.

(** [address(0)]. *)
Definition address_zero : address := 0.

(** An [euint8] handle.  [FHE.asEuint8(v)] is a trivial encryption, whose
    handle is a function of the plaintext; the zero handle is the
    uninitialised one. *)
Inductive euint8 : Type :=
| euint8_uninit
| euint8_handle (plain : N).

(** Who a decryption grant is given to: the contract itself
    ([FHE.allowThis]) or an account ([FHE.allow]). *)
Inductive Grantee : Type :=
| This
| Account (a : address).

Record PatientProfile : Type := mkPatientProfile {
  anxietyLevel : euint8;
  depressionLevel : euint8;
  stressLevel : euint8;
  isActive : bool;
  registrationTime : N
}.

Record CounselingSession : Type := mkCounselingSession {
  sessionType : euint8;
  severityLevel : euint8;
  sessionActive : bool;
  sessionCompleted : bool;
  patient : address;
  startTime : N;
  endTime : N;
  improvementScore : euint8
}.

Record TherapyPlan : Type := mkTherapyPlan {
  recommendedSessions : euint8;
  priorityLevel : euint8;
  planActive : bool;
  createdTime : N
}.

(** The zero values a mapping returns for a key never written. *)
Definition PatientProfile_zero : PatientProfile :=
  mkPatientProfile euint8_uninit euint8_uninit euint8_uninit false 0.

Definition CounselingSession_zero : CounselingSession :=
  mkCounselingSession euint8_uninit euint8_uninit false false address_zero 0 0
    euint8_uninit.

Definition TherapyPlan_zero : TherapyPlan :=
  mkTherapyPlan euint8_uninit euint8_uninit false 0.

Inductive Event : Type :=
| PatientRegistered (patient : address) (timestamp : N)
| SessionStarted (sessionId : N) (patient : address) (startTime : N)
| SessionCompleted (sessionId : N) (patient : address) (endTime : N)
| TherapyPlanCreated (patient : address) (timestamp : N)
| EmergencyAlert (patient : address) (timestamp : N).

(** ** Storage *)

(** The contract's state variables, and the grants it has made in the FHE
    access-control list (state of the external library, rolled back with
    the rest when a call reverts). *)
Record Storage : Type := mkStorage {
  counselor : address;
  currentSessionId : N;                        (* uint16 *)
  lastSessionTime : N;                         (* uint256 *)
  patientProfiles : gmap address PatientProfile;
  sessions : gmap N CounselingSession;         (* keyed by uint16 *)
  therapyPlans : gmap address TherapyPlan;
  patientSessions : gmap address (list N);
  acl : list (euint8 * Grantee)
}.

Definition Storage_zero : Storage :=
  mkStorage address_zero 0 0 ∅ ∅ ∅ ∅ [].

Definition SESSION_DURATION : N := 3600.
Definition BREAK_DURATION : N := 1800.

Definition UINT16_MAX : N := 65535.
Definition UINT256_MAX : N :=
  Eval vm_compute in 2 ^ 256 - 1.

(** Mapping reads. *)
Definition profile_at (s : Storage) (a : address) : PatientProfile :=
  default PatientProfile_zero (patientProfiles s !! a).

Definition session_at (s : Storage) (id : N) : CounselingSession :=
  default CounselingSession_zero (sessions s !! id).

Definition plan_at (s : Storage) (a : address) : TherapyPlan :=
  default TherapyPlan_zero (therapyPlans s !! a).

Definition sessions_of (s : Storage) (a : address) : list N :=
  default [] (patientSessions s !! a).

(** Writes to one state variable. *)
Definition set_counselor (c : address) (s : Storage) : Storage :=
  mkStorage c (currentSessionId s) (lastSessionTime s) (patientProfiles s)
    (sessions s) (therapyPlans s) (patientSessions s) (acl s).

Definition set_currentSessionId (n : N) (s : Storage) : Storage :=
  mkStorage (counselor s) n (lastSessionTime s) (patientProfiles s)
    (sessions s) (therapyPlans s) (patientSessions s) (acl s).

Definition set_lastSessionTime (t : N) (s : Storage) : Storage :=
  mkStorage (counselor s) (currentSessionId s) t (patientProfiles s)
    (sessions s) (therapyPlans s) (patientSessions s) (acl s).

Definition set_profile (a : address) (p : PatientProfile) (s : Storage)
  : Storage :=
  mkStorage (counselor s) (currentSessionId s) (lastSessionTime s)
    (<[a := p]> (patientProfiles s))
    (sessions s) (therapyPlans s) (patientSessions s) (acl s).

Definition set_session (id : N) (c : CounselingSession) (s : Storage)
  : Storage :=
  mkStorage (counselor s) (currentSessionId s) (lastSessionTime s)
    (patientProfiles s) (<[id := c]> (sessions s))
    (therapyPlans s) (patientSessions s) (acl s).

Definition set_plan (a : address) (p : TherapyPlan) (s : Storage) : Storage :=
  mkStorage (counselor s) (currentSessionId s) (lastSessionTime s)
    (patientProfiles s) (sessions s) (<[a := p]> (therapyPlans s))
    (patientSessions s) (acl s).

(** Writes to one field of a struct. *)
Definition with_anxietyLevel (h : euint8) (x : PatientProfile)
  : PatientProfile :=
  mkPatientProfile h (depressionLevel x) (stressLevel x) (isActive x)
    (registrationTime x).

Definition with_depressionLevel (h : euint8) (x : PatientProfile)
  : PatientProfile :=
  mkPatientProfile (anxietyLevel x) h (stressLevel x) (isActive x)
    (registrationTime x).

Definition with_stressLevel (h : euint8) (x : PatientProfile)
  : PatientProfile :=
  mkPatientProfile (anxietyLevel x) (depressionLevel x) h (isActive x)
    (registrationTime x).

Definition with_sessionActive (b : bool) (x : CounselingSession)
  : CounselingSession :=
  mkCounselingSession (sessionType x) (severityLevel x) b (sessionCompleted x)
    (patient x) (startTime x) (endTime x) (improvementScore x).

Definition with_sessionCompleted (b : bool) (x : CounselingSession)
  : CounselingSession :=
  mkCounselingSession (sessionType x) (severityLevel x) (sessionActive x) b
    (patient x) (startTime x) (endTime x) (improvementScore x).

Definition with_endTime (t : N) (x : CounselingSession) : CounselingSession :=
  mkCounselingSession (sessionType x) (severityLevel x) (sessionActive x)
    (sessionCompleted x) (patient x) (startTime x) t (improvementScore x).

Definition with_improvementScore (h : euint8) (x : CounselingSession)
  : CounselingSession :=
  mkCounselingSession (sessionType x) (severityLevel x) (sessionActive x)
    (sessionCompleted x) (patient x) (startTime x) (endTime x) h.

(** [patientSessions[a].push(id)]. *)
Definition push_patientSession (a : address) (id : N) (s : Storage)
  : Storage :=
  mkStorage (counselor s) (currentSessionId s) (lastSessionTime s)
    (patientProfiles s) (sessions s) (therapyPlans s)
    (<[a := sessions_of s a ++ [id]]> (patientSessions s)) (acl s).

Definition grant (h : euint8) (g : Grantee) (s : Storage) : Storage :=
  mkStorage (counselor s) (currentSessionId s) (lastSessionTime s)
    (patientProfiles s) (sessions s) (therapyPlans s) (patientSessions s)
    (acl s ++ [(h, g)]).

(** ** Execution monad *)

(** A revert: [require] failing with its message, or a compiler-inserted
    [Panic(code)]. *)
Inductive Fault : Type :=
| Error (reason : string)
| Panic (code : N).

(** The result of running a function body: it returns, with the storage
    and the events emitted; or it reverts, and [dirty] is the storage as
    it stood at that point (the transaction throws it away). *)
Inductive Outcome (A : Type) : Type :=
| Done (a : A) (s : Storage) (log : list Event)
| Abort (f : Fault) (dirty : Storage).

Arguments Done {A} a s log.
Arguments Abort {A} f dirty.

Definition M (A : Type) : Type := Storage -> Outcome A.

Definition ret {A} (a : A) : M A := fun s => Done a s [].

Definition bind {A B} (m : M A) (k : A -> M B) : M B := fun s =>
  match m s with
  | Done a s1 log1 =>
      match k a s1 with
      | Done b s2 log2 => Done b s2 (log1 ++ log2)
      | Abort f d => Abort f d
      end
  | Abort f d => Abort f d
  end.

Declare Scope sol_scope.
Delimit Scope sol_scope with sol.
Notation "x <- m ;; k" := (bind m (fun x => k))
  (at level 100, m at next level, right associativity) : sol_scope.
Notation "m ;; k" := (bind m (fun _ => k))
  (at level 100, right associativity) : sol_scope.
Local Open Scope sol_scope.

Definition require (c : bool) (reason : string) : M unit := fun s =>
  if c then Done tt s [] else Abort (Error reason) s.

Definition panic {A} (code : N) : M A := fun s => Abort (Panic code) s.

Definition emit (ev : Event) : M unit := fun s => Done tt s [ev].

Definition sload {A} (f : Storage -> A) : M A := fun s => Done (f s) s [].

Definition sstore (f : Storage -> Storage) : M unit := fun s =>
  Done tt (f s) [].

(** Checked arithmetic on unsigned integers whose type has maximum
    [max]. *)
Definition checked_add (max a b : N) : M N :=
  if a + b <=? max then ret (a + b) else panic 0x11.

Definition checked_sub (a b : N) : M N :=
  if b <=? a then ret (a - b) else panic 0x11.

(** [msg.sender] and [block.timestamp]. *)
Record Env : Type := mkEnv {
  msg_sender : address;
  block_timestamp : N
}.

(** The three calls the contract makes to the FHE library, which is not
    part of this repository: [asEuint8] encrypts a plaintext, [allowThis]
    lets the contract use a handle again, [allow] lets an account decrypt
    it.  The grants are recorded in [acl], in the order they are made. *)
Module FHE.
Definition asEuint8 (v : N) : euint8 := euint8_handle v.
Definition allowThis (h : euint8) : M unit := sstore (grant h This).
Definition allow (h : euint8) (a : address) : M unit :=
  sstore (grant h (Account a)).
End FHE.

(** ** The contract *)

Section Contract.
Variable e : Env.

Let sender : address := msg_sender e.
Let now : N := block_timestamp e.

Definition constructor : M unit :=
  sstore (set_counselor sender) ;;
  sstore (set_currentSessionId 1) ;;
  sstore (set_lastSessionTime now).

Definition isSessionTimeAvailable : M bool :=
  last <- sload lastSessionTime ;;
  deadline <- checked_add UINT256_MAX last BREAK_DURATION ;;
  ret (deadline <=? now).

Definition onlyCounselor (body : M unit) : M unit :=
  c <- sload counselor ;;
  require (sender =? c) "Not authorized counselor" ;;
  body.

Definition onlyRegisteredPatient (body : M unit) : M unit :=
  p <- sload (fun s => profile_at s sender) ;;
  require (isActive p) "Patient not registered" ;;
  body.

Definition sessionAvailable (body : M unit) : M unit :=
  ok <- isSessionTimeAvailable ;;
  require ok "No session slots available" ;;
  body.

Definition _checkEmergencyLevel (anxiety depression stress : N) : M unit :=
  if (9 <=? anxiety) || (9 <=? depression) || (9 <=? stress)
     || ((7 <=? anxiety) && (7 <=? depression) && (7 <=? stress))
  then emit (EmergencyAlert sender now)
  else ret tt.

Definition registerPatient
    (_anxietyLevel _depressionLevel _stressLevel : N) : M unit :=
  require ((_anxietyLevel <=? 10) && (_depressionLevel <=? 10)
           && (_stressLevel <=? 10)) "Levels must be 0-10" ;;
  p <- sload (fun s => profile_at s sender) ;;
  require (negb (isActive p)) "Patient already registered" ;;
  let encryptedAnxiety := FHE.asEuint8 _anxietyLevel in
  let encryptedDepression := FHE.asEuint8 _depressionLevel in
  let encryptedStress := FHE.asEuint8 _stressLevel in
  sstore (set_profile sender
            (mkPatientProfile encryptedAnxiety encryptedDepression
               encryptedStress true now)) ;;
  FHE.allowThis encryptedAnxiety ;;
  FHE.allowThis encryptedDepression ;;
  FHE.allowThis encryptedStress ;;
  FHE.allow encryptedAnxiety sender ;;
  FHE.allow encryptedDepression sender ;;
  FHE.allow encryptedStress sender ;;
  c1 <- sload counselor ;; FHE.allow encryptedAnxiety c1 ;;
  c2 <- sload counselor ;; FHE.allow encryptedDepression c2 ;;
  c3 <- sload counselor ;; FHE.allow encryptedStress c3 ;;
  _checkEmergencyLevel _anxietyLevel _depressionLevel _stressLevel ;;
  emit (PatientRegistered sender now).

Definition startCounselingSession (_sessionType _severityLevel : N)
  : M unit :=
  onlyRegisteredPatient (sessionAvailable (
    require ((1 <=? _sessionType) && (_sessionType <=? 4))
      "Invalid session type" ;;
    require ((1 <=? _severityLevel) && (_severityLevel <=? 10))
      "Severity must be 1-10" ;;
    let encryptedType := FHE.asEuint8 _sessionType in
    let encryptedSeverity := FHE.asEuint8 _severityLevel in
    id <- sload currentSessionId ;;
    sstore (set_session id
              (mkCounselingSession encryptedType encryptedSeverity
                 true false sender now 0 (FHE.asEuint8 0))) ;;
    id1 <- sload currentSessionId ;;
    sstore (push_patientSession sender id1) ;;
    FHE.allowThis encryptedType ;;
    FHE.allowThis encryptedSeverity ;;
    c1 <- sload counselor ;; FHE.allow encryptedType c1 ;;
    c2 <- sload counselor ;; FHE.allow encryptedSeverity c2 ;;
    id2 <- sload currentSessionId ;;
    emit (SessionStarted id2 sender now) ;;
    id3 <- sload currentSessionId ;;
    next <- checked_add UINT16_MAX id3 1 ;;
    sstore (set_currentSessionId next) ;;
    sstore (set_lastSessionTime now))).

(** A write to one field through [CounselingSession storage session]. *)
Definition sstore_session (id : N)
    (f : CounselingSession -> CounselingSession) : M unit :=
  sstore (fun s => set_session id (f (session_at s id)) s).

Definition completeSession (_sessionId _improvementScore : N) : M unit :=
  require (_improvementScore <=? 10) "Improvement score must be 0-10" ;;
  p <- sload (fun s => patient (session_at s _sessionId)) ;;
  c <- sload counselor ;;
  require ((p =? sender) || (sender =? c)) "Not authorized" ;;
  active <- sload (fun s => sessionActive (session_at s _sessionId)) ;;
  require active "Session not active" ;;
  completed <- sload (fun s => sessionCompleted (session_at s _sessionId)) ;;
  require (negb completed) "Session already completed" ;;
  let encryptedImprovement := FHE.asEuint8 _improvementScore in
  sstore_session _sessionId (with_improvementScore encryptedImprovement) ;;
  sstore_session _sessionId (with_sessionActive false) ;;
  sstore_session _sessionId (with_sessionCompleted true) ;;
  sstore_session _sessionId (with_endTime now) ;;
  FHE.allowThis encryptedImprovement ;;
  p1 <- sload (fun s => patient (session_at s _sessionId)) ;;
  FHE.allow encryptedImprovement p1 ;;
  c1 <- sload counselor ;;
  FHE.allow encryptedImprovement c1 ;;
  p2 <- sload (fun s => patient (session_at s _sessionId)) ;;
  emit (SessionCompleted _sessionId p2 now).

Definition createTherapyPlan
    (_patient : address) (_recommendedSessions _priorityLevel : N)
  : M unit :=
  onlyCounselor (
    p <- sload (fun s => profile_at s _patient) ;;
    require (isActive p) "Patient not registered" ;;
    require ((0 <? _recommendedSessions) && (_recommendedSessions <=? 20))
      "Sessions must be 1-20" ;;
    require ((1 <=? _priorityLevel) && (_priorityLevel <=? 4))
      "Priority must be 1-4" ;;
    let encryptedSessions := FHE.asEuint8 _recommendedSessions in
    let encryptedPriority := FHE.asEuint8 _priorityLevel in
    sstore (set_plan _patient
              (mkTherapyPlan encryptedSessions encryptedPriority true now)) ;;
    FHE.allowThis encryptedSessions ;;
    FHE.allowThis encryptedPriority ;;
    FHE.allow encryptedSessions _patient ;;
    FHE.allow encryptedPriority _patient ;;
    emit (TherapyPlanCreated _patient now)).

(** A write to one field through [PatientProfile storage profile]. *)
Definition sstore_profile (a : address)
    (f : PatientProfile -> PatientProfile) : M unit :=
  sstore (fun s => set_profile a (f (profile_at s a)) s).

Definition updateMentalHealthLevels
    (_anxietyLevel _depressionLevel _stressLevel : N) : M unit :=
  onlyRegisteredPatient (
    require ((_anxietyLevel <=? 10) && (_depressionLevel <=? 10)
             && (_stressLevel <=? 10)) "Levels must be 0-10" ;;
    let newAnxiety := FHE.asEuint8 _anxietyLevel in
    let newDepression := FHE.asEuint8 _depressionLevel in
    let newStress := FHE.asEuint8 _stressLevel in
    sstore_profile sender (with_anxietyLevel newAnxiety) ;;
    sstore_profile sender (with_depressionLevel newDepression) ;;
    sstore_profile sender (with_stressLevel newStress) ;;
    FHE.allowThis newAnxiety ;;
    FHE.allowThis newDepression ;;
    FHE.allowThis newStress ;;
    FHE.allow newAnxiety sender ;;
    FHE.allow newDepression sender ;;
    FHE.allow newStress sender ;;
    c1 <- sload counselor ;; FHE.allow newAnxiety c1 ;;
    c2 <- sload counselor ;; FHE.allow newDepression c2 ;;
    c3 <- sload counselor ;; FHE.allow newStress c3 ;;
    _checkEmergencyLevel _anxietyLevel _depressionLevel _stressLevel).

(** *** Views *)

Definition getSessionAvailability : M (bool * N * N) :=
  isAvailable <- isSessionTimeAvailable ;;
  nextTime <- (if isAvailable : bool then ret now
               else last <- sload lastSessionTime ;;
                    checked_add UINT256_MAX last BREAK_DURATION) ;;
  ret (isAvailable, nextTime, now).

Definition getPatientSessionCount (_patient : address) : M N :=
  l <- sload (fun s => sessions_of s _patient) ;;
  ret (N.of_nat (length l)).

Definition getSessionInfo (_sessionId : N)
  : M (bool * bool * N * N * address) :=
  x <- sload (fun s => session_at s _sessionId) ;;
  ret (sessionActive x, sessionCompleted x, startTime x, endTime x,
       patient x).

Definition getSessionStats : M (N * N * N) :=
  id <- sload currentSessionId ;;
  id1 <- sload currentSessionId ;;
  total <- checked_sub id1 1 ;;
  last <- sload lastSessionTime ;;
  ret (id, total, last).

Definition isPatientRegistered (_patient : address) : M bool :=
  p <- sload (fun s => profile_at s _patient) ;;
  ret (isActive p).

Definition getTherapyPlanStatus (_patient : address) : M (bool * N) :=
  plan <- sload (fun s => plan_at s _patient) ;;
  ret (planActive plan, createdTime plan).

End Contract.

(** ** Transactions *)

Inductive Call : Type :=
| call_registerPatient (a d s : N)
| call_startCounselingSession (ty sev : N)
| call_completeSession (id score : N)
| call_createTherapyPlan (p : address) (n prio : N)
| call_updateMentalHealthLevels (a d s : N).

Definition dispatch (e : Env) (c : Call) : M unit :=
  match c with
  | call_registerPatient a d s => registerPatient e a d s
  | call_startCounselingSession ty sev => startCounselingSession e ty sev
  | call_completeSession id score => completeSession e id score
  | call_createTherapyPlan p n prio => createTherapyPlan e p n prio
  | call_updateMentalHealthLevels a d s => updateMentalHealthLevels e a d s
  end.

Record Tx : Type := mkTx { tx_env : Env; tx_call : Call }.

Inductive Receipt : Type :=
| Succeeded (log : list Event)
| Failed (f : Fault).

(** One transaction: the storage and events of a call that returns are
    kept; a call that reverts leaves the storage as it was. *)
Definition transact (s : Storage) (tx : Tx) : Storage * Receipt :=
  match dispatch (tx_env tx) (tx_call tx) s with
  | Done _ s' log => (s', Succeeded log)
  | Abort f _ => (s, Failed f)
  end.

(** Deployment runs the constructor on empty storage. *)
Definition deploy (e : Env) : Storage :=
  match constructor e Storage_zero with
  | Done _ s _ => s
  | Abort _ _ => Storage_zero
  end.

Fixpoint run (s : Storage) (txs : list Tx) : Storage * list Receipt :=
  match txs with
  | [] => (s, [])
  | tx :: rest =>
      let '(s1, r) := transact s tx in
      let '(s2, rs) := run s1 rest in
      (s2, r :: rs)
  end.

(** ** The storage a successful call leaves

    Each function's writes, collected into one record; the [_cases] lemmas
    below prove that the function computes exactly this. *)

Definition levels_grants (a d st : N) (who c : address)
  : list (euint8 * Grantee) :=
  [(FHE.asEuint8 a, This); (FHE.asEuint8 d, This); (FHE.asEuint8 st, This);
   (FHE.asEuint8 a, Account who); (FHE.asEuint8 d, Account who);
   (FHE.asEuint8 st, Account who);
   (FHE.asEuint8 a, Account c); (FHE.asEuint8 d, Account c);
   (FHE.asEuint8 st, Account c)].

Definition after_register (e : Env) (a d st : N) (s : Storage) : Storage :=
  mkStorage (counselor s) (currentSessionId s) (lastSessionTime s)
    (<[msg_sender e :=
         mkPatientProfile (FHE.asEuint8 a) (FHE.asEuint8 d) (FHE.asEuint8 st)
           true (block_timestamp e)]> (patientProfiles s))
    (sessions s) (therapyPlans s) (patientSessions s)
    (acl s ++ levels_grants a d st (msg_sender e) (counselor s)).

Definition after_update (e : Env) (a d st : N) (s : Storage) : Storage :=
  mkStorage (counselor s) (currentSessionId s) (lastSessionTime s)
    (<[msg_sender e :=
         mkPatientProfile (FHE.asEuint8 a) (FHE.asEuint8 d) (FHE.asEuint8 st)
           (isActive (profile_at s (msg_sender e)))
           (registrationTime (profile_at s (msg_sender e)))]>
       (patientProfiles s))
    (sessions s) (therapyPlans s) (patientSessions s)
    (acl s ++ levels_grants a d st (msg_sender e) (counselor s)).

Definition new_session (e : Env) (ty sev : N) : CounselingSession :=
  mkCounselingSession (FHE.asEuint8 ty) (FHE.asEuint8 sev) true false
    (msg_sender e) (block_timestamp e) 0 (FHE.asEuint8 0).

(** [startCounselingSession] up to, and not including, its last two
    statements [currentSessionId++] and [lastSessionTime = ...]. *)
Definition start_written (e : Env) (ty sev : N) (s : Storage) : Storage :=
  mkStorage (counselor s) (currentSessionId s) (lastSessionTime s)
    (patientProfiles s)
    (<[currentSessionId s := new_session e ty sev]> (sessions s))
    (therapyPlans s)
    (<[msg_sender e := sessions_of s (msg_sender e) ++ [currentSessionId s]]>
       (patientSessions s))
    (acl s ++ [(FHE.asEuint8 ty, This); (FHE.asEuint8 sev, This);
               (FHE.asEuint8 ty, Account (counselor s));
               (FHE.asEuint8 sev, Account (counselor s))]).

Definition after_start (e : Env) (ty sev : N) (s : Storage) : Storage :=
  set_lastSessionTime (block_timestamp e)
    (set_currentSessionId (currentSessionId s + 1) (start_written e ty sev s)).

Definition completed_session (x : CounselingSession) (score now : N)
  : CounselingSession :=
  mkCounselingSession (sessionType x) (severityLevel x) false true (patient x)
    (startTime x) now (FHE.asEuint8 score).

Definition after_complete (e : Env) (id score : N) (s : Storage) : Storage :=
  mkStorage (counselor s) (currentSessionId s) (lastSessionTime s)
    (patientProfiles s)
    (<[id := completed_session (session_at s id) score (block_timestamp e)]>
       (sessions s))
    (therapyPlans s) (patientSessions s)
    (acl s ++ [(FHE.asEuint8 score, This);
               (FHE.asEuint8 score, Account (patient (session_at s id)));
               (FHE.asEuint8 score, Account (counselor s))]).

Definition after_plan (e : Env) (p : address) (n prio : N) (s : Storage)
  : Storage :=
  mkStorage (counselor s) (currentSessionId s) (lastSessionTime s)
    (patientProfiles s) (sessions s)
    (<[p := mkTherapyPlan (FHE.asEuint8 n) (FHE.asEuint8 prio) true
              (block_timestamp e)]> (therapyPlans s))
    (patientSessions s)
    (acl s ++ [(FHE.asEuint8 n, This); (FHE.asEuint8 prio, This);
               (FHE.asEuint8 n, Account p); (FHE.asEuint8 prio, Account p)]).

(** The condition of [_checkEmergencyLevel], and the events it emits. *)
Definition emergency (anxiety depression stress : N) : bool :=
  (9 <=? anxiety) || (9 <=? depression) || (9 <=? stress)
  || ((7 <=? anxiety) && (7 <=? depression) && (7 <=? stress)).

Definition alert_log (e : Env) (a d st : N) : list Event :=
  if emergency a d st
  then [EmergencyAlert (msg_sender e) (block_timestamp e)]
  else [].

Definition levels_ok (a d st : N) : bool :=
  (a <=? 10) && (d <=? 10) && (st <=? 10).

Definition type_ok (ty : N) : bool := (1 <=? ty) && (ty <=? 4).
Definition severity_ok (sev : N) : bool := (1 <=? sev) && (sev <=? 10).
Definition plan_sessions_ok (n : N) : bool := (0 <? n) && (n <=? 20).
Definition priority_ok (prio : N) : bool := (1 <=? prio) && (prio <=? 4).

(** ** The specification's vocabulary *)

(** The rule of the Threshold Monitor, in the specification's words. *)
Definition emergency_rule (anxiety depression stress : N) : Prop :=
  9 <= anxiety \/ 9 <= depression \/ 9 <= stress
  \/ (7 <= anxiety /\ 7 <= depression /\ 7 <= stress).

(** The specification's error names. *)
Inductive ErrorKind : Type :=
| AlreadyRegistered
| NotRegistered
| OutOfRange
| InvalidSessionType
| NoSlotAvailable
| SessionNotFound
| SessionNotActive
| AlreadyCompleted
| Unauthorized.

(** The name the specification gives to each revert message of the
    contract.  No message of the contract stands for [SessionNotFound],
    and a [Panic] has no name. *)
Definition classify (f : Fault) : option ErrorKind :=
  match f with
  | Error msg =>
      if String.eqb msg "Levels must be 0-10" then Some OutOfRange
      else if String.eqb msg "Patient already registered"
      then Some AlreadyRegistered
      else if String.eqb msg "Patient not registered" then Some NotRegistered
      else if String.eqb msg "No session slots available"
      then Some NoSlotAvailable
      else if String.eqb msg "Invalid session type"
      then Some InvalidSessionType
      else if String.eqb msg "Severity must be 1-10" then Some OutOfRange
      else if String.eqb msg "Improvement score must be 0-10"
      then Some OutOfRange
      else if String.eqb msg "Not authorized" then Some Unauthorized
      else if String.eqb msg "Not authorized counselor"
      then Some Unauthorized
      else if String.eqb msg "Session not active" then Some SessionNotActive
      else if String.eqb msg "Session already completed"
      then Some AlreadyCompleted
      else if String.eqb msg "Sessions must be 1-20" then Some OutOfRange
      else if String.eqb msg "Priority must be 1-4" then Some OutOfRange
      else None
  | Panic _ => None
  end.

(** ** Reachable storage *)

(** Block timestamps are 64-bit on the chain the contract is configured
    for, and no transaction comes from [address(0)]. *)
Definition TIMESTAMP_BOUND : N := Eval vm_compute in 2 ^ 64.

Definition wf_env (e : Env) : Prop :=
  msg_sender e <> address_zero /\ block_timestamp e < TIMESTAMP_BOUND.

Definition wf_envb (e : Env) : bool :=
  negb (msg_sender e =? address_zero) && (block_timestamp e <? TIMESTAMP_BOUND).

Inductive reachable : Storage -> Prop :=
| reachable_deploy (e : Env) :
    wf_env e -> reachable (deploy e)
| reachable_transact (s : Storage) (tx : Tx) :
    reachable s -> wf_env (tx_env tx) -> reachable (fst (transact s tx)).

Definition registered (s : Storage) (a : address) : Prop :=
  isActive (profile_at s a) = true.

(** What holds of every reachable storage. *)
Record invariant (s : Storage) : Prop := mkInvariant {
  inv_id_lo : 1 <= currentSessionId s;
  inv_id_hi : currentSessionId s <= UINT16_MAX;
  inv_time : lastSessionTime s < TIMESTAMP_BOUND;
  inv_dom : forall id,
      is_Some (sessions s !! id) <-> 1 <= id < currentSessionId s;
  inv_session : forall id x,
      sessions s !! id = Some x ->
      sessionActive x = negb (sessionCompleted x)
      /\ patient x <> address_zero
}.

(** ** Traces *)

Definition started_id (ev : Event) : list N :=
  match ev with
  | SessionStarted id _ _ => [id]
  | _ => []
  end.

(** The session ids announced by [SessionStarted], in order. *)
Definition assigned_ids (rs : list Receipt) : list N :=
  flat_map (fun r => match r with
                     | Succeeded log => flat_map started_id log
                     | Failed _ => []
                     end) rs.

Definition is_start (c : Call) : bool :=
  match c with
  | call_startCounselingSession _ _ => true
  | _ => false
  end.

Definition succeeded (r : Receipt) : bool :=
  match r with
  | Succeeded _ => true
  | Failed _ => false
  end.

(** How many [startCounselingSession] transactions of a trace went
    through. *)
Fixpoint successful_starts (txs : list Tx) (rs : list Receipt) : nat :=
  match txs, rs with
  | tx :: txs', r :: rs' =>
      (if is_start (tx_call tx) && succeeded r then 1 else 0)%nat
      + successful_starts txs' rs'
  | _, _ => 0%nat
  end.

(** [1; 2; ...; n]. *)
Definition ids_upto (n : nat) : list N := map N.of_nat (seq 1 n).

(** ** Statements under test *)

Definition is_alert (ev : Event) : bool :=
  match ev with
  | EmergencyAlert _ _ => true
  | _ => false
  end.

Definition has_alert (log : list Event) : bool := existsb is_alert log.

(** The transaction reverts, with the error the specification calls [k],
    and the storage is as before. *)
Definition rejects (s : Storage) (tx : Tx) (k : ErrorKind) : Prop :=
  exists f, transact s tx = (s, Failed f) /\ classify f = Some k.

(** The end-to-end scenario of section 8: the contract is deployed by [c]
    at [t0]; [p1] registers with (7,5,6); [p2], the other identity,
    registers; [p1] starts session (1,8); [p2] tries to start one; [p1]
    completes session 1 with 7; session 1 is completed once more. *)
Definition section8_trace (p1 p2 : address) (t1 t2 t3 t4 t5 : N) (e6 : Env)
    (score : N) : list Tx :=
  [ mkTx (mkEnv p1 t1) (call_registerPatient 7 5 6);
    mkTx (mkEnv p2 t2) (call_registerPatient 6 5 7);
    mkTx (mkEnv p1 t3) (call_startCounselingSession 1 8);
    mkTx (mkEnv p2 t4) (call_startCounselingSession 2 7);
    mkTx (mkEnv p1 t5) (call_completeSession 1 7);
    mkTx e6 (call_completeSession 1 score) ].

Definition section8 (c : address) (t0 : N) (p1 p2 : address)
    (t1 t2 t3 t4 t5 : N) (e6 : Env) (score : N) : Storage * list Receipt :=
  run (deploy (mkEnv c t0)) (section8_trace p1 p2 t1 t2 t3 t4 t5 e6 score).

(** The scenario as the specification tells it, every call in the block
    of the deployment. *)
Definition section8_as_stated : Prop :=
  forall (c p1 p2 : address) (t score : N),
    c <> address_zero -> p1 <> address_zero -> p2 <> address_zero ->
    p1 <> p2 -> t < TIMESTAMP_BOUND ->
    exists log1 log2 f4 log5 f6,
      snd (section8 c t p1 p2 t t t t t (mkEnv p1 t) score) =
        [Succeeded log1; Succeeded log2; Succeeded [SessionStarted 1 p1 t];
         Failed f4; Succeeded log5; Failed f6]
      /\ has_alert log1 = false
      /\ classify f4 = Some NoSlotAvailable
      /\ classify f6 = Some AlreadyCompleted.

(** Cooldown, as stated, measured from the most recent start that went
    through (so one has: [currentSessionId] is past 1): any start before
    the deadline is refused for want of a slot; a well-formed start by a
    registered caller at or after it goes through. *)
Definition cooldown_refuses_as_stated : Prop :=
  forall (s : Storage) (e : Env) (ty sev : N),
    reachable s -> wf_env e -> 1 < currentSessionId s ->
    block_timestamp e < lastSessionTime s + BREAK_DURATION ->
    rejects s (mkTx e (call_startCounselingSession ty sev)) NoSlotAvailable.

Definition cooldown_allows_as_stated : Prop :=
  forall (s : Storage) (e : Env) (ty sev : N),
    reachable s -> wf_env e -> 1 < currentSessionId s ->
    lastSessionTime s + BREAK_DURATION <= block_timestamp e ->
    registered s (msg_sender e) ->
    type_ok ty = true -> severity_ok sev = true ->
    exists s' log,
      transact s (mkTx e (call_startCounselingSession ty sev))
      = (s', Succeeded log)
      /\ lastSessionTime s' = block_timestamp e.

(** A patient who opens a session every [BREAK_DURATION] seconds. *)
Definition busy_trace (p : address) (n : nat) : list Tx :=
  mkTx (mkEnv p 0) (call_registerPatient 7 5 6)
  :: map (fun k => mkTx (mkEnv p (BREAK_DURATION * N.of_nat k))
                     (call_startCounselingSession 1 8))
       (seq 1 n).

(** The storage after 65534 sessions. *)
Definition full_book : Storage :=
  fst (run (deploy (mkEnv 1 0)) (busy_trace 2 (N.to_nat 65534))).

(** Repeated registration, as stated. *)
Definition reregistration_as_stated : Prop :=
  forall (s : Storage) (e : Env) (a d st : N),
    reachable s -> wf_env e -> registered s (msg_sender e) ->
    rejects s (mkTx e (call_registerPatient a d st)) AlreadyRegistered.

(** Range enforcement, as stated. *)
Definition range_error (s : Storage) (tx : Tx) : Prop :=
  rejects s tx OutOfRange \/ rejects s tx InvalidSessionType.

Definition range_enforcement_as_stated : Prop :=
  forall (s : Storage) (e : Env),
    reachable s -> wf_env e ->
    (forall a d st, levels_ok a d st = false ->
       range_error s (mkTx e (call_registerPatient a d st)))
    /\ (forall a d st, levels_ok a d st = false ->
          range_error s (mkTx e (call_updateMentalHealthLevels a d st)))
    /\ (forall ty sev, type_ok ty && severity_ok sev = false ->
          range_error s (mkTx e (call_startCounselingSession ty sev)))
    /\ (forall id score, 10 < score ->
          range_error s (mkTx e (call_completeSession id score)))
    /\ (forall p n prio, plan_sessions_ok n && priority_ok prio = false ->
          range_error s (mkTx e (call_createTherapyPlan p n prio))).

(** Completing a session that was never created, as stated. *)
Definition never_created (s : Storage) (id : N) : Prop :=
  id = 0 \/ currentSessionId s <= id.

Definition missing_session_as_stated : Prop :=
  forall (s : Storage) (e : Env) (id score : N),
    reachable s -> wf_env e -> never_created s id -> score <= 10 ->
    rejects s (mkTx e (call_completeSession id score)) SessionNotFound.

(** A second completion, as stated. *)
Definition second_completion_as_stated : Prop :=
  forall (s s1 : Storage) (e e' : Env) (id score score' : N) (log : list Event),
    reachable s -> wf_env e -> wf_env e' ->
    transact s (mkTx e (call_completeSession id score)) = (s1, Succeeded log) ->
    msg_sender e' = patient (session_at s1 id)
    \/ msg_sender e' = counselor s1 ->
    score' <= 10 ->
    rejects s1 (mkTx e' (call_completeSession id score')) AlreadyCompleted.

(** ** What a transaction that goes through has done *)

(** The guards a call passed, the storage it left and the events it
    emitted; [transact_inv] below proves this of every transaction that
    goes through. *)
Definition step_effect (e : Env) (c : Call) (s s' : Storage)
    (log : list Event) : Prop :=
  match c with
  | call_registerPatient a d st =>
      levels_ok a d st = true
      /\ isActive (profile_at s (msg_sender e)) = false
      /\ s' = after_register e a d st s
      /\ log = alert_log e a d st
               ++ [PatientRegistered (msg_sender e) (block_timestamp e)]
  | call_startCounselingSession ty sev =>
      isActive (profile_at s (msg_sender e)) = true
      /\ lastSessionTime s + BREAK_DURATION <= block_timestamp e
      /\ type_ok ty = true /\ severity_ok sev = true
      /\ currentSessionId s + 1 <= UINT16_MAX
      /\ s' = after_start e ty sev s
      /\ log = [SessionStarted (currentSessionId s) (msg_sender e)
                  (block_timestamp e)]
  | call_completeSession id score =>
      score <= 10
      /\ (patient (session_at s id) = msg_sender e
          \/ msg_sender e = counselor s)
      /\ sessionActive (session_at s id) = true
      /\ sessionCompleted (session_at s id) = false
      /\ s' = after_complete e id score s
      /\ log = [SessionCompleted id (patient (session_at s id))
                  (block_timestamp e)]
  | call_createTherapyPlan p n prio =>
      msg_sender e = counselor s
      /\ isActive (profile_at s p) = true
      /\ plan_sessions_ok n = true /\ priority_ok prio = true
      /\ s' = after_plan e p n prio s
      /\ log = [TherapyPlanCreated p (block_timestamp e)]
  | call_updateMentalHealthLevels a d st =>
      isActive (profile_at s (msg_sender e)) = true
      /\ levels_ok a d st = true
      /\ s' = after_update e a d st s
      /\ log = alert_log e a d st
  end.

(** ** Further invariants of the reachable storage *)

(** Session ids from 1 up to, and not including, [next]. *)
Definition ids_below (next : N) : list N := ids_upto (N.to_nat (next - 1)).

(** The ids of the sessions that belong to [a], in increasing order. *)
Definition owned_ids (s : Storage) (a : address) : list N :=
  filter (fun id => patient (session_at s id) = a)
    (ids_below (currentSessionId s)).

(** Sessions, profiles and plans as the contract keeps them. *)
Record bookkeeping (s : Storage) : Prop := mkBookkeeping {
  bk_owner : forall id x,
      sessions s !! id = Some x -> isActive (profile_at s (patient x)) = true;
  bk_open : forall id x,
      sessions s !! id = Some x -> sessionActive x = true ->
      endTime x = 0 /\ improvementScore x = FHE.asEuint8 0;
  bk_started : forall id x,
      sessions s !! id = Some x -> startTime x <= lastSessionTime s;
  bk_spaced : forall id id' x x',
      sessions s !! id = Some x -> sessions s !! id' = Some x' ->
      id < id' -> startTime x + BREAK_DURATION <= startTime x';
  bk_plan : forall a p,
      therapyPlans s !! a = Some p ->
      planActive p = true /\ isActive (profile_at s a) = true;
  bk_index : forall a, sessions_of s a = owned_ids s a;
  bk_size : N.of_nat (size (sessions s)) + 1 = currentSessionId s
}.

(** The grants of the access-control list. *)
Definition granted (s : Storage) (h : euint8) (g : Grantee) : Prop :=
  In (h, g) (acl s).

Definition profile_granted (s : Storage) (a : address) : Prop :=
  forall h,
    h = anxietyLevel (profile_at s a) \/ h = depressionLevel (profile_at s a)
    \/ h = stressLevel (profile_at s a) ->
    granted s h This /\ granted s h (Account a)
    /\ granted s h (Account (counselor s)).

Definition is_registration (a : address) (ev : Event) : bool :=
  match ev with
  | PatientRegistered p _ => N.eqb p a
  | _ => false
  end.

Definition events_of (rs : list Receipt) : list Event :=
  flat_map (fun r => match r with
                     | Succeeded log => log
                     | Failed _ => []
                     end) rs.

Definition completed_id (ev : Event) : list N :=
  match ev with
  | SessionCompleted id _ _ => [id]
  | _ => []
  end.

(** The session ids announced by [SessionCompleted], in order. *)
Definition completed_ids (rs : list Receipt) : list N :=
  flat_map completed_id (events_of rs).

(** ** Proof tools *)

Ltac sol_unfold :=
  cbv beta iota zeta delta
    [registerPatient startCounselingSession completeSession createTherapyPlan
     updateMentalHealthLevels constructor isSessionTimeAvailable onlyCounselor
     onlyRegisteredPatient sessionAvailable _checkEmergencyLevel
     sstore_session sstore_profile getSessionAvailability
     getPatientSessionCount getSessionInfo getSessionStats isPatientRegistered
     getTherapyPlanStatus FHE.allowThis FHE.allow
     bind ret require panic emit sload sstore checked_add checked_sub].

(** Reads of state variables and mappings, on a storage given by its
    fields. *)
Ltac storage_reads :=
  cbv beta iota zeta delta
      [grant set_session set_profile set_plan set_counselor
       set_currentSessionId set_lastSessionTime push_patientSession
       session_at profile_at plan_at sessions_of
       counselor currentSessionId lastSessionTime patientProfiles sessions
       therapyPlans patientSessions acl].

(** Normalises a goal about a storage given by its fields. *)
Ltac storage_simpl :=
  cbv beta iota zeta delta
      [after_register after_update after_start start_written after_complete
       after_plan levels_grants];
  storage_reads;
  repeat (progress (rewrite ?lookup_insert_eq; cbn [from_option id]));
  rewrite ?insert_insert_eq;
  cbv beta iota zeta delta
      [completed_session new_session
       with_anxietyLevel with_depressionLevel with_stressLevel
       with_sessionActive with_sessionCompleted with_endTime
       with_improvementScore
       sessionType severityLevel sessionActive sessionCompleted
       patient startTime endTime improvementScore anxietyLevel
       depressionLevel stressLevel isActive registrationTime];
  rewrite <- ?app_assoc; cbn [app].

Ltac split_ifs :=
  repeat (first
    [ match goal with
      | |- context [negb ?c] => destruct c eqn:?
      end
    | match goal with
      | |- context [if ?c then _ else _] => destruct c eqn:?
      end ];
    cbn [negb]; cbv beta iota).

Ltac cases_proof :=
  match goal with
  | s : Storage |- _ => destruct s
  end;
  sol_unfold; storage_reads; split_ifs; storage_simpl; reflexivity.

(** ** What each function computes *)

Lemma registerPatient_cases (e : Env) (a d st : N) (s : Storage) :
  registerPatient e a d st s =
    if negb (levels_ok a d st)
    then Abort (Error "Levels must be 0-10") s
    else if isActive (profile_at s (msg_sender e))
    then Abort (Error "Patient already registered") s
    else Done tt (after_register e a d st s)
           (alert_log e a d st
            ++ [PatientRegistered (msg_sender e) (block_timestamp e)]).
Proof.
  unfold levels_ok, alert_log, emergency. cases_proof.
Qed.

Lemma updateMentalHealthLevels_cases (e : Env) (a d st : N) (s : Storage) :
  updateMentalHealthLevels e a d st s =
    if negb (isActive (profile_at s (msg_sender e)))
    then Abort (Error "Patient not registered") s
    else if negb (levels_ok a d st)
    then Abort (Error "Levels must be 0-10") s
    else Done tt (after_update e a d st s) (alert_log e a d st).
Proof.
  unfold levels_ok, alert_log, emergency. cases_proof.
Qed.

Lemma startCounselingSession_cases (e : Env) (ty sev : N) (s : Storage) :
  startCounselingSession e ty sev s =
    if negb (isActive (profile_at s (msg_sender e)))
    then Abort (Error "Patient not registered") s
    else if negb (lastSessionTime s + BREAK_DURATION <=? UINT256_MAX)
    then Abort (Panic 0x11) s
    else if negb (lastSessionTime s + BREAK_DURATION <=? block_timestamp e)
    then Abort (Error "No session slots available") s
    else if negb (type_ok ty)
    then Abort (Error "Invalid session type") s
    else if negb (severity_ok sev)
    then Abort (Error "Severity must be 1-10") s
    else if negb (currentSessionId s + 1 <=? UINT16_MAX)
    then Abort (Panic 0x11) (start_written e ty sev s)
    else Done tt (after_start e ty sev s)
           [SessionStarted (currentSessionId s) (msg_sender e)
              (block_timestamp e)].
Proof.
  unfold type_ok, severity_ok. cases_proof.
Qed.

Lemma completeSession_cases (e : Env) (id score : N) (s : Storage) :
  completeSession e id score s =
    if negb (score <=? 10)
    then Abort (Error "Improvement score must be 0-10") s
    else if negb ((patient (session_at s id) =? msg_sender e)
                  || (msg_sender e =? counselor s))
    then Abort (Error "Not authorized") s
    else if negb (sessionActive (session_at s id))
    then Abort (Error "Session not active") s
    else if sessionCompleted (session_at s id)
    then Abort (Error "Session already completed") s
    else Done tt (after_complete e id score s)
           [SessionCompleted id (patient (session_at s id))
              (block_timestamp e)].
Proof.
  cases_proof.
Qed.

Lemma createTherapyPlan_cases (e : Env) (p : address) (n prio : N)
    (s : Storage) :
  createTherapyPlan e p n prio s =
    if negb (msg_sender e =? counselor s)
    then Abort (Error "Not authorized counselor") s
    else if negb (isActive (profile_at s p))
    then Abort (Error "Patient not registered") s
    else if negb (plan_sessions_ok n)
    then Abort (Error "Sessions must be 1-20") s
    else if negb (priority_ok prio)
    then Abort (Error "Priority must be 1-4") s
    else Done tt (after_plan e p n prio s)
           [TherapyPlanCreated p (block_timestamp e)].
Proof.
  unfold plan_sessions_ok, priority_ok. cases_proof.
Qed.

(** ** Transactions revert as a whole *)

Lemma transact_failed (s s' : Storage) (tx : Tx) (f : Fault) :
  transact s tx = (s', Failed f) -> s' = s.
Proof.
  unfold transact.
  destruct (dispatch (tx_env tx) (tx_call tx) s); intros H;
    inversion H; reflexivity.
Qed.

Lemma transact_cases (s : Storage) (tx : Tx) :
  (exists f, transact s tx = (s, Failed f))
  \/ (exists s' log, transact s tx = (s', Succeeded log)
                     /\ dispatch (tx_env tx) (tx_call tx) s = Done tt s' log).
Proof.
  unfold transact.
  destruct (dispatch (tx_env tx) (tx_call tx) s) as [[] s' log|f d].
  - right. eauto.
  - left. eauto.
Qed.

(** Boolean tests as propositions. *)
Ltac boolp :=
  repeat match goal with
         | H : negb _ = true |- _ => apply negb_true_iff in H
         | H : negb _ = false |- _ => apply negb_false_iff in H
         | H : _ && _ = true |- _ => apply andb_prop in H; destruct H
         | H : _ || _ = false |- _ => apply orb_false_elim in H; destruct H
         | H : (_ <=? _) = true |- _ => apply N.leb_le in H
         | H : (_ <=? _) = false |- _ => apply N.leb_gt in H
         | H : (_ <? _) = true |- _ => apply N.ltb_lt in H
         | H : (_ <? _) = false |- _ => apply N.ltb_ge in H
         | H : (_ =? _) = true |- _ => apply N.eqb_eq in H
         | H : (_ =? _) = false |- _ => apply N.eqb_neq in H
         end.

Ltac by_cases :=
  repeat match goal with
         | |- context [if ?c then _ else _] => destruct c eqn:?
         end.

Ltac use_cases :=
  first [ rewrite registerPatient_cases
        | rewrite startCounselingSession_cases
        | rewrite completeSession_cases
        | rewrite createTherapyPlan_cases
        | rewrite updateMentalHealthLevels_cases ].

(** Every [require] of the contract comes before its first write: a
    function body that reverts on a [require] has written nothing.  The
    one revert after writes is the overflow of [currentSessionId++]. *)
Lemma abort_before_writes (e : Env) (c : Call) (s d : Storage) (f : Fault) :
  dispatch e c s = Abort f d ->
  d = s
  \/ (exists ty sev, c = call_startCounselingSession ty sev
                     /\ f = Panic 0x11
                     /\ UINT16_MAX <= currentSessionId s
                     /\ d = start_written e ty sev s).
Proof.
  destruct c as [a dd st|ty sev|id score|p n prio|a dd st];
    cbn [dispatch]; use_cases; by_cases;
    intros H; inversion H; subst; auto.
  right. exists ty, sev. boolp. repeat split; try reflexivity.
  unfold UINT16_MAX in *. lia.
Qed.

(** ** Invariant of the reachable storage *)

Ltac after_simpl :=
  unfold after_register, after_update, after_start, start_written,
    after_complete, after_plan, set_lastSessionTime, set_currentSessionId;
  cbn [counselor currentSessionId lastSessionTime patientProfiles sessions
       therapyPlans patientSessions acl].

Lemma invariant_deploy (e : Env) : wf_env e -> invariant (deploy e).
Proof.
  intros [Hs Ht]. unfold deploy. sol_unfold. cbn.
  split; cbn; unfold UINT16_MAX; try lia.
  - intros id. rewrite lookup_empty. split.
    + intros [x Hx]. discriminate.
    + lia.
  - intros id x. rewrite lookup_empty. discriminate.
Qed.

Lemma invariant_same_sessions (s s' : Storage) :
  invariant s ->
  currentSessionId s' = currentSessionId s ->
  lastSessionTime s' = lastSessionTime s ->
  sessions s' = sessions s ->
  invariant s'.
Proof.
  intros [H1 H2 H3 H4 H5] Hid Ht Hs.
  split; rewrite ?Hid, ?Ht, ?Hs; assumption.
Qed.

Lemma session_at_active (s : Storage) (id : N) :
  sessionActive (session_at s id) = true ->
  sessions s !! id = Some (session_at s id).
Proof.
  unfold session_at. destruct (sessions s !! id); cbn; [reflexivity|].
  discriminate.
Qed.

Lemma invariant_transact (s : Storage) (tx : Tx) :
  invariant s -> wf_env (tx_env tx) -> invariant (fst (transact s tx)).
Proof.
  intros Hinv [Hsender Htime].
  destruct (transact_cases s tx) as [[f Hf]|(s' & log & Ht & Hd)].
  { rewrite Hf. exact Hinv. }
  rewrite Ht. cbn [fst]. clear Ht.
  destruct tx as [e c]. cbn [tx_env tx_call] in *.
  destruct c as [a dd st|ty sev|id score|p n prio|a dd st];
    cbn [dispatch] in Hd; revert Hd; use_cases; by_cases;
    intros Hd; inversion Hd; subst; clear Hd;
    try (apply (invariant_same_sessions s); [assumption|reflexivity..]).
  - (* startCounselingSession *)
    boolp. destruct Hinv as [H1 H2 H3 H4 H5].
    split; after_simpl.
    + lia.
    + lia.
    + exact Htime.
    + intros id. rewrite lookup_insert_is_Some, H4. split.
      * intros [<-|[Hne Hr]]; lia.
      * intros Hr. destruct (decide (currentSessionId s = id)); [auto|].
        right. split; [assumption|]. lia.
    + intros id x. rewrite lookup_insert. case_decide.
      * intros Hx. inversion Hx; subst. cbn. auto.
      * apply H5.
  - (* completeSession *)
    boolp. destruct Hinv as [H1 H2 H3 H4 H5].
    pose proof (session_at_active s id) as Hex.
    match goal with H : sessionActive _ = true |- _ => specialize (Hex H) end.
    split; after_simpl; try assumption.
    + intros id'. rewrite lookup_insert_is_Some, H4. split.
      * intros [<-|[Hne Hr]]; [|assumption]. apply H4. eauto.
      * intros Hr. destruct (decide (id = id')); [auto|]. right.
        split; [assumption|]. assumption.
    + intros id' x. rewrite lookup_insert. case_decide.
      * intros Hx. inversion Hx; subst. cbn. split; [reflexivity|].
        apply (H5 id' _ Hex).
      * apply H5.
Qed.

Lemma reachable_invariant (s : Storage) : reachable s -> invariant s.
Proof.
  induction 1 as [e He|s tx Hr IH Hwf].
  - apply invariant_deploy, He.
  - apply invariant_transact; assumption.
Qed.

(** ** Traces *)

Lemma run_app (s : Storage) (txs1 txs2 : list Tx) :
  run s (txs1 ++ txs2) =
    (fst (run (fst (run s txs1)) txs2),
     snd (run s txs1) ++ snd (run (fst (run s txs1)) txs2)).
Proof.
  revert s. induction txs1 as [|tx txs1 IH]; intros s;
    cbn [run app fst snd].
  - destruct (run s txs2); reflexivity.
  - destruct (transact s tx) as [s1 r]. rewrite IH.
    destruct (run s1 txs1) as [s2 rs]. reflexivity.
Qed.

Lemma run_cons (s : Storage) (tx : Tx) (txs : list Tx) :
  run s (tx :: txs) =
    (fst (run (fst (transact s tx)) txs),
     snd (transact s tx) :: snd (run (fst (transact s tx)) txs)).
Proof.
  cbn [run]. destruct (transact s tx) as [s1 r]. cbn [fst snd].
  destruct (run s1 txs) as [s2 rs]. reflexivity.
Qed.

Lemma reachable_run (s : Storage) (txs : list Tx) :
  reachable s -> Forall (fun tx => wf_env (tx_env tx)) txs ->
  reachable (fst (run s txs)).
Proof.
  revert s. induction txs as [|tx txs IH]; intros s Hs Hwf.
  - exact Hs.
  - rewrite run_cons. cbn [fst]. inversion Hwf; subst.
    apply IH; [|assumption]. apply reachable_transact; assumption.
Qed.

(** ** Profiles are permanent *)

Lemma registered_transact (s : Storage) (tx : Tx) (a : address) :
  registered s a -> registered (fst (transact s tx)) a.
Proof.
  intros Ha.
  destruct (transact_cases s tx) as [[f Hf]|(s' & log & Ht & Hd)].
  { rewrite Hf. exact Ha. }
  rewrite Ht. cbn [fst]. clear Ht.
  destruct tx as [e c]. cbn [tx_env tx_call] in *.
  destruct c as [x y z|ty sev|id score|p n prio|x y z];
    cbn [dispatch] in Hd; revert Hd; use_cases; by_cases;
    intros Hd; inversion Hd; subst; clear Hd; try exact Ha;
    unfold registered, profile_at in *; after_simpl;
    rewrite lookup_insert; case_decide; subst; cbn; auto.
Qed.

Lemma registered_run (s : Storage) (txs : list Tx) (a : address) :
  registered s a -> registered (fst (run s txs)) a.
Proof.
  revert s. induction txs as [|tx txs IH]; intros s Ha.
  - exact Ha.
  - rewrite run_cons. cbn [fst]. apply IH, registered_transact, Ha.
Qed.

Lemma never_created_zero (s : Storage) (id : N) :
  invariant s -> never_created s id ->
  session_at s id = CounselingSession_zero.
Proof.
  intros Hinv Hid. unfold session_at.
  destruct (sessions s !! id) as [x|] eqn:Hx; [|reflexivity].
  exfalso. assert (Hs : is_Some (sessions s !! id)) by eauto.
  apply (inv_dom s Hinv) in Hs. destruct Hid; lia.
Qed.

(** ** All-or-nothing calls *)

(** C8.  A call of [registerPatient], [updateMentalHealthLevels],
    [startCounselingSession], [completeSession] or [createTherapyPlan]
    that ends in an error leaves the storage as it found it: the
    profiles, the sessions, the therapy plans, [currentSessionId],
    [lastSessionTime], and everything else.  When the error is a failed
    [require], the function had not written anything yet. *)
Theorem failed_call_changes_nothing (s : Storage) (tx : Tx) (f : Fault) :
  snd (transact s tx) = Failed f ->
  fst (transact s tx) = s
  /\ patientProfiles (fst (transact s tx)) = patientProfiles s
  /\ sessions (fst (transact s tx)) = sessions s
  /\ therapyPlans (fst (transact s tx)) = therapyPlans s
  /\ currentSessionId (fst (transact s tx)) = currentSessionId s
  /\ lastSessionTime (fst (transact s tx)) = lastSessionTime s
  /\ (forall reason d,
        dispatch (tx_env tx) (tx_call tx) s = Abort (Error reason) d ->
        d = s).
Proof.
  intros Hf.
  assert (Hs : fst (transact s tx) = s).
  { destruct (transact s tx) as [s' r] eqn:Ht. cbn [fst snd] in *. subst r.
    exact (transact_failed _ _ _ _ Ht). }
  rewrite Hs. repeat split; try reflexivity.
  intros reason d Hd.
  destruct (abort_before_writes _ _ _ _ _ Hd)
    as [Hsame|(ty & sev & _ & Hpanic & _)]; [exact Hsame|discriminate].
Qed.

Lemma failed_call_changes_nothing_witness :
  snd (transact (deploy (mkEnv 1 1000))
         (mkTx (mkEnv 2 1000) (call_startCounselingSession 1 8)))
  = Failed (Error "Patient not registered")
  /\ sessions (fst (transact (deploy (mkEnv 1 1000))
                      (mkTx (mkEnv 2 1000) (call_startCounselingSession 1 8))))
     = sessions (deploy (mkEnv 1 1000)).
Proof.
  split; [reflexivity|].
  apply (failed_call_changes_nothing (deploy (mkEnv 1 1000))
           (mkTx (mkEnv 2 1000) (call_startCounselingSession 1 8))
           (Error "Patient not registered")).
  reflexivity.
Defined.

(** ** Queries *)

(** C10.  The queries return, write nothing and emit nothing.  On a key
    never written they give the zero value: [getSessionInfo] gives
    (false, false, 0, 0, address(0)), [isPatientRegistered] gives false,
    [getTherapyPlanStatus] gives (false, 0), [getPatientSessionCount]
    gives 0; in a reachable storage the ids never written are 0 and those
    from [currentSessionId] on.  The two queries that compute,
    [getSessionAvailability] and [getSessionStats], return in every
    reachable storage. *)
Theorem queries_total :
  (forall s id, exists r, getSessionInfo id s = Done r s [])
  /\ (forall s a, exists r, isPatientRegistered a s = Done r s [])
  /\ (forall s a, exists r, getTherapyPlanStatus a s = Done r s [])
  /\ (forall s a, exists r, getPatientSessionCount a s = Done r s [])
  /\ (forall s id, sessions s !! id = None ->
        getSessionInfo id s = Done (false, false, 0, 0, address_zero) s [])
  /\ (forall s a, patientProfiles s !! a = None ->
        isPatientRegistered a s = Done false s [])
  /\ (forall s a, therapyPlans s !! a = None ->
        getTherapyPlanStatus a s = Done (false, 0) s [])
  /\ (forall s a, patientSessions s !! a = None ->
        getPatientSessionCount a s = Done 0 s [])
  /\ (forall s id, reachable s -> never_created s id ->
        sessions s !! id = None)
  /\ (forall s e, reachable s -> wf_env e ->
        (exists r, getSessionAvailability e s = Done r s [])
        /\ (exists r, getSessionStats s = Done r s [])).
Proof.
  repeat split; intros.
  - eexists. reflexivity.
  - eexists. reflexivity.
  - eexists. reflexivity.
  - eexists. reflexivity.
  - sol_unfold. unfold session_at. rewrite H. reflexivity.
  - sol_unfold. unfold profile_at. rewrite H. reflexivity.
  - sol_unfold. unfold plan_at. rewrite H. reflexivity.
  - sol_unfold. unfold sessions_of. rewrite H. reflexivity.
  - apply reachable_invariant in H.
    destruct (sessions s !! id) as [x|] eqn:Hx; [|reflexivity].
    exfalso. assert (Hs : is_Some (sessions s !! id)) by eauto.
    apply (inv_dom s H) in Hs. destruct H0; lia.
  - apply reachable_invariant in H. destruct H as [H1 H2 H3 H4 H5].
    sol_unfold.
    assert (Hle : (lastSessionTime s + BREAK_DURATION <=? UINT256_MAX) = true).
    { apply N.leb_le. unfold TIMESTAMP_BOUND, BREAK_DURATION, UINT256_MAX in *.
      lia. }
    rewrite Hle.
    destruct (lastSessionTime s + BREAK_DURATION <=? block_timestamp e);
      cbv beta iota; rewrite ?Hle; eexists; reflexivity.
  - apply reachable_invariant in H. destruct H as [H1 H2 H3 H4 H5].
    sol_unfold.
    assert (Hle : (1 <=? currentSessionId s) = true) by (apply N.leb_le; lia).
    rewrite Hle. eexists. reflexivity.
Qed.

Lemma queries_total_witness :
  sessions (deploy (mkEnv 1 1000)) !! 7 = None
  /\ getSessionInfo 7 (deploy (mkEnv 1 1000))
     = Done (false, false, 0, 0, address_zero) (deploy (mkEnv 1 1000)) []
  /\ exists r, getSessionStats (deploy (mkEnv 1 1000))
               = Done r (deploy (mkEnv 1 1000)) [].
Proof.
  destruct queries_total
    as (_ & _ & _ & _ & Hinfo & _ & _ & _ & Hnone & Hstats).
  assert (Hwf : wf_env (mkEnv 1 1000)).
  { split; [discriminate|reflexivity]. }
  assert (Hr : reachable (deploy (mkEnv 1 1000))).
  { apply reachable_deploy, Hwf. }
  assert (Hn : sessions (deploy (mkEnv 1 1000)) !! 7 = None).
  { apply Hnone; [exact Hr|]. right. cbn. lia. }
  split; [exact Hn|]. split.
  - apply Hinfo, Hn.
  - apply (Hstats _ (mkEnv 1 1000) Hr Hwf).
Defined.

(** ** Threshold monitor *)

Lemma emergency_iff_rule (a d st : N) :
  emergency a d st = true <-> emergency_rule a d st.
Proof.
  unfold emergency, emergency_rule.
  rewrite !orb_true_iff, !andb_true_iff, !N.leb_le. tauto.
Qed.

(** C5.  On levels within 0..10, a registration or an update that goes
    through emits [EmergencyAlert] exactly when a level is 9 or more or
    all three are 7 or more; (9,0,0), (0,9,0), (0,0,9), (7,7,7) and
    (8,8,8) raise it, (6,7,7) and (5,4,6) do not.  The alert carries the
    caller and the block timestamp and nothing else: two calls by the
    same caller in the same block that both raise it emit the same alert,
    whatever the levels. *)
Theorem emergency_signal (e : Env) (s : Storage) (a d st : N) :
  a <= 10 -> d <= 10 -> st <= 10 ->
  (emergency a d st = true <-> emergency_rule a d st)
  /\ (isActive (profile_at s (msg_sender e)) = false ->
      transact s (mkTx e (call_registerPatient a d st))
      = (after_register e a d st s,
         Succeeded
           ((if emergency a d st
             then [EmergencyAlert (msg_sender e) (block_timestamp e)]
             else [])
            ++ [PatientRegistered (msg_sender e) (block_timestamp e)])))
  /\ (isActive (profile_at s (msg_sender e)) = true ->
      transact s (mkTx e (call_updateMentalHealthLevels a d st))
      = (after_update e a d st s,
         Succeeded
           (if emergency a d st
            then [EmergencyAlert (msg_sender e) (block_timestamp e)]
            else [])))
  /\ (forall a' d' st',
        emergency a d st = emergency a' d' st' ->
        alert_log e a d st = alert_log e a' d' st')
  /\ emergency 9 0 0 = true /\ emergency 0 9 0 = true
  /\ emergency 0 0 9 = true /\ emergency 7 7 7 = true
  /\ emergency 8 8 8 = true /\ emergency 6 7 7 = false
  /\ emergency 5 4 6 = false.
Proof.
  intros Ha Hd Hst.
  assert (Hok : levels_ok a d st = true).
  { unfold levels_ok. rewrite !andb_true_iff, !N.leb_le. auto. }
  split; [apply emergency_iff_rule|].
  split; [|split; [|split]].
  - intros Hreg. unfold transact. cbn [tx_env tx_call dispatch].
    rewrite registerPatient_cases, Hok, Hreg. reflexivity.
  - intros Hreg. unfold transact. cbn [tx_env tx_call dispatch].
    rewrite updateMentalHealthLevels_cases, Hok, Hreg. reflexivity.
  - intros a' d' st' Heq. unfold alert_log. rewrite Heq. reflexivity.
  - repeat split; reflexivity.
Qed.

Lemma emergency_signal_witness :
  transact (deploy (mkEnv 1 1000)) (mkTx (mkEnv 2 1001)
                                      (call_registerPatient 9 5 6))
  = (after_register (mkEnv 2 1001) 9 5 6 (deploy (mkEnv 1 1000)),
     Succeeded [EmergencyAlert 2 1001; PatientRegistered 2 1001]).
Proof.
  destruct (emergency_signal (mkEnv 2 1001) (deploy (mkEnv 1 1000)) 9 5 6)
    as (_ & Hreg & _); [lia|lia|lia|].
  apply Hreg. reflexivity.
Defined.

(** ** Registration *)

(** C3 as stated does not hold: an address that is registered and
    registers again with a level above 10 is told its levels are out of
    range. *)
Lemma reregistration_as_stated_fails :
  snd (run (deploy (mkEnv 1 1000))
         [mkTx (mkEnv 2 1001) (call_registerPatient 7 5 6);
          mkTx (mkEnv 2 1002) (call_registerPatient 11 5 6)])
  = [Succeeded [PatientRegistered 2 1001];
     Failed (Error "Levels must be 0-10")]
  /\ ~ reregistration_as_stated.
Proof.
  split; [reflexivity|].
  intros H.
  set (s0 := deploy (mkEnv 1 1000)).
  set (tx1 := mkTx (mkEnv 2 1001) (call_registerPatient 7 5 6)).
  assert (Hwf0 : wf_env (mkEnv 1 1000)) by (split; [discriminate|reflexivity]).
  assert (Hwf1 : wf_env (tx_env tx1)) by (split; [discriminate|reflexivity]).
  assert (Hwf2 : wf_env (mkEnv 2 1002)) by (split; [discriminate|reflexivity]).
  assert (Hr : reachable (fst (transact s0 tx1))).
  { apply reachable_transact; [apply reachable_deploy, Hwf0|exact Hwf1]. }
  destruct (H _ (mkEnv 2 1002) 11 5 6 Hr Hwf2) as (f & Hf & Hk).
  { reflexivity. }
  assert (Hf' : snd (transact (fst (transact s0 tx1))
                       (mkTx (mkEnv 2 1002) (call_registerPatient 11 5 6)))
                = Failed (Error "Levels must be 0-10")) by reflexivity.
  rewrite Hf in Hf'. cbn [snd] in Hf'. inversion Hf'; subst.
  discriminate Hk.
Qed.

(** C3, amended.  An address with an active profile that calls
    [registerPatient] is refused, and the storage stays as it was: with
    "Patient already registered" when the three levels are within 0..10,
    with "Levels must be 0-10" when one is not.  A profile, once active,
    stays active, so this holds for good after a first registration. *)
Theorem reregistration_rejected (s : Storage) (e : Env) (a d st : N) :
  registered s (msg_sender e) ->
  transact s (mkTx e (call_registerPatient a d st))
  = (s, Failed (Error (if levels_ok a d st
                       then "Patient already registered"
                       else "Levels must be 0-10")))
  /\ (levels_ok a d st = true ->
      rejects s (mkTx e (call_registerPatient a d st)) AlreadyRegistered)
  /\ (levels_ok a d st = false ->
      rejects s (mkTx e (call_registerPatient a d st)) OutOfRange)
  /\ forall txs, registered (fst (run s txs)) (msg_sender e).
Proof.
  intros Hreg.
  assert (Ht : transact s (mkTx e (call_registerPatient a d st))
               = (s, Failed (Error (if levels_ok a d st
                                    then "Patient already registered"
                                    else "Levels must be 0-10")))).
  { unfold transact. cbn [tx_env tx_call dispatch].
    rewrite registerPatient_cases. unfold registered in Hreg. rewrite Hreg.
    destruct (levels_ok a d st); reflexivity. }
  split; [exact Ht|]. split; [|split].
  - intros Hok. rewrite Hok in Ht. eexists. split; [exact Ht|reflexivity].
  - intros Hok. rewrite Hok in Ht. eexists. split; [exact Ht|reflexivity].
  - intros txs. apply registered_run, Hreg.
Qed.

Lemma reregistration_rejected_witness :
  transact (fst (transact (deploy (mkEnv 1 1000))
                   (mkTx (mkEnv 2 1001) (call_registerPatient 7 5 6))))
    (mkTx (mkEnv 2 1002) (call_registerPatient 5 4 3))
  = (fst (transact (deploy (mkEnv 1 1000))
            (mkTx (mkEnv 2 1001) (call_registerPatient 7 5 6))),
     Failed (Error "Patient already registered")).
Proof.
  apply (reregistration_rejected
           (fst (transact (deploy (mkEnv 1 1000))
                   (mkTx (mkEnv 2 1001) (call_registerPatient 7 5 6))))
           (mkEnv 2 1002) 5 4 3).
  reflexivity.
Defined.

(** ** Completing a session *)

Lemma wf_env_intro (e : Env) : wf_envb e = true -> wf_env e.
Proof.
  unfold wf_envb. intros H. apply andb_prop in H. destruct H as [Ha Ht].
  apply negb_true_iff, N.eqb_neq in Ha. apply N.ltb_lt in Ht.
  split; assumption.
Qed.

(** C9 as stated does not hold: on a new contract a patient who completes
    session 5, which does not exist, is told "Not authorized"; the
    counselor is told "Session not active". *)
Lemma missing_session_as_stated_fails :
  transact (deploy (mkEnv 1 1000)) (mkTx (mkEnv 2 1001)
                                      (call_completeSession 5 7))
  = (deploy (mkEnv 1 1000), Failed (Error "Not authorized"))
  /\ transact (deploy (mkEnv 1 1000)) (mkTx (mkEnv 1 1001)
                                         (call_completeSession 5 7))
     = (deploy (mkEnv 1 1000), Failed (Error "Session not active"))
  /\ ~ missing_session_as_stated.
Proof.
  split; [reflexivity|]. split; [reflexivity|].
  intros H.
  destruct (H (deploy (mkEnv 1 1000)) (mkEnv 2 1001) 5 7)
    as (f & Hf & Hk).
  - apply reachable_deploy, wf_env_intro. reflexivity.
  - apply wf_env_intro. reflexivity.
  - right. cbn. lia.
  - lia.
  - assert (Hf' : transact (deploy (mkEnv 1 1000))
                    (mkTx (mkEnv 2 1001) (call_completeSession 5 7))
                  = (deploy (mkEnv 1 1000), Failed (Error "Not authorized")))
      by reflexivity.
    rewrite Hf in Hf'. inversion Hf'; subst. discriminate Hk.
Qed.

(** C9, amended.  In a reachable storage, [completeSession] on an id that
    no session has (0, or [currentSessionId] and beyond) with a score
    within 0..10 is refused and changes nothing; the error is "Not
    authorized" for every caller but the counselor, and "Session not
    active" for the counselor.  No caller gets an error of its own for a
    missing session. *)
Theorem missing_session_rejected (s : Storage) (e : Env) (id score : N) :
  reachable s -> wf_env e -> never_created s id -> score <= 10 ->
  transact s (mkTx e (call_completeSession id score))
  = (s, Failed (Error (if msg_sender e =? counselor s
                       then "Session not active"
                       else "Not authorized")))
  /\ (msg_sender e <> counselor s ->
      rejects s (mkTx e (call_completeSession id score)) Unauthorized)
  /\ (msg_sender e = counselor s ->
      rejects s (mkTx e (call_completeSession id score)) SessionNotActive).
Proof.
  intros Hr [Hsender _] Hid Hscore.
  pose proof (never_created_zero s id (reachable_invariant s Hr) Hid) as Hz.
  assert (Ht : transact s (mkTx e (call_completeSession id score))
               = (s, Failed (Error (if msg_sender e =? counselor s
                                    then "Session not active"
                                    else "Not authorized")))).
  { unfold transact. cbn [tx_env tx_call dispatch].
    rewrite completeSession_cases, Hz.
    apply N.leb_le in Hscore. rewrite Hscore.
    cbn [patient sessionActive CounselingSession_zero negb].
    assert (Hne : (address_zero =? msg_sender e) = false).
    { apply N.eqb_neq. auto. }
    rewrite Hne. cbn [orb].
    destruct (msg_sender e =? counselor s); reflexivity. }
  split; [exact Ht|]. split.
  - intros Hne. apply N.eqb_neq in Hne. rewrite Hne in Ht.
    eexists. split; [exact Ht|reflexivity].
  - intros Heq. apply N.eqb_eq in Heq. rewrite Heq in Ht.
    eexists. split; [exact Ht|reflexivity].
Qed.

Lemma missing_session_rejected_witness :
  transact (deploy (mkEnv 1 1000)) (mkTx (mkEnv 2 1001)
                                      (call_completeSession 0 7))
  = (deploy (mkEnv 1 1000), Failed (Error "Not authorized")).
Proof.
  apply (missing_session_rejected (deploy (mkEnv 1 1000)) (mkEnv 2 1001) 0 7).
  - apply reachable_deploy, wf_env_intro. reflexivity.
  - apply wf_env_intro. reflexivity.
  - left. reflexivity.
  - lia.
Defined.

(** In a reachable storage a session is active or completed, never both,
    so the last [require] of [completeSession] never fires: no call is
    refused with "Session already completed". *)
Lemma already_completed_unreachable (s : Storage) (tx : Tx) :
  reachable s ->
  snd (transact s tx) <> Failed (Error "Session already completed").
Proof.
  intros Hr Hf. pose proof (reachable_invariant s Hr) as Hinv.
  destruct tx as [e c]. unfold transact in Hf. cbn [tx_env tx_call] in Hf.
  destruct c as [x y z|ty sev|id score|p n prio|x y z];
    cbn [dispatch] in Hf; revert Hf; use_cases; by_cases;
    cbn [snd]; intros Hf; try discriminate.
  boolp.
  match goal with
  | H : sessionActive _ = true |- _ =>
      pose proof (session_at_active s id H) as Hex
  end.
  destruct (inv_session s Hinv id _ Hex) as [Hac _].
  repeat match goal with
         | H : sessionActive _ = true |- _ => rewrite H in Hac; clear H
         | H : sessionCompleted _ = true |- _ => rewrite H in Hac; clear H
         end.
  discriminate Hac.
Qed.

(** Once a session is completed, whoever may complete it and tries again,
    with a score within 0..10, is told "Session not active", and the
    storage stays as it was. *)
Lemma second_completion (s s1 : Storage) (e e' : Env) (id score score' : N)
    (log : list Event) :
  transact s (mkTx e (call_completeSession id score)) = (s1, Succeeded log) ->
  msg_sender e' = patient (session_at s1 id)
  \/ msg_sender e' = counselor s1 ->
  score' <= 10 ->
  transact s1 (mkTx e' (call_completeSession id score'))
  = (s1, Failed (Error "Session not active")).
Proof.
  unfold transact. cbn [tx_env tx_call dispatch].
  rewrite !completeSession_cases. by_cases; intros Ht; inversion Ht; subst.
  all: intros Hwho Hscore; try reflexivity; exfalso; boolp.
  all: try lia.
  all: repeat match goal with
         | H : context [session_at (after_complete _ _ _ _) _] |- _ =>
             unfold session_at, after_complete in H;
             cbn [sessions counselor] in H;
             rewrite lookup_insert_eq in H; cbn in H
         end; try discriminate.
  all: destruct Hwho; congruence.
Qed.

(** C4, at the failing input.  The counselor 1 deploys at time 0; patient
    2 registers, starts session 1 at time 1800 and completes it; the
    second completion, by the patient or by the counselor, is refused
    with "Session not active", which the specification calls
    SessionNotActive, not AlreadyCompleted.  Hence C4 as stated does not
    hold of the contract. *)
Theorem second_completion_not_active :
  snd (run (deploy (mkEnv 1 0))
         [mkTx (mkEnv 2 10) (call_registerPatient 7 5 6);
          mkTx (mkEnv 2 1800) (call_startCounselingSession 1 8);
          mkTx (mkEnv 2 1900) (call_completeSession 1 7);
          mkTx (mkEnv 2 2000) (call_completeSession 1 7);
          mkTx (mkEnv 1 2000) (call_completeSession 1 3)])
  = [Succeeded [PatientRegistered 2 10];
     Succeeded [SessionStarted 1 2 1800];
     Succeeded [SessionCompleted 1 2 1900];
     Failed (Error "Session not active");
     Failed (Error "Session not active")]
  /\ classify (Error "Session not active") = Some SessionNotActive
  /\ ~ second_completion_as_stated.
Proof.
  split; [reflexivity|]. split; [reflexivity|].
  intros H.
  set (s2 := fst (run (deploy (mkEnv 1 0))
                    [mkTx (mkEnv 2 10) (call_registerPatient 7 5 6);
                     mkTx (mkEnv 2 1800) (call_startCounselingSession 1 8)])).
  assert (Hr : reachable s2).
  { apply reachable_run.
    - apply reachable_deploy, wf_env_intro. reflexivity.
    - repeat constructor; apply wf_env_intro; reflexivity. }
  destruct (transact s2 (mkTx (mkEnv 2 1900) (call_completeSession 1 7)))
    as [s3 r] eqn:Ht.
  assert (Hrr : r = Succeeded [SessionCompleted 1 2 1900]).
  { change r with (snd (s3, r)). rewrite <- Ht. reflexivity. }
  subst r.
  assert (Hwf : wf_env (mkEnv 2 1900)) by (apply wf_env_intro; reflexivity).
  assert (Hwf' : wf_env (mkEnv 2 2000)) by (apply wf_env_intro; reflexivity).
  assert (Hs3 : s3 = fst (transact s2 (mkTx (mkEnv 2 1900)
                                         (call_completeSession 1 7)))).
  { rewrite Ht. reflexivity. }
  destruct (H s2 s3 (mkEnv 2 1900) (mkEnv 2 2000) 1 7 7 _ Hr Hwf Hwf' Ht)
    as (f & Hf & Hk).
  - left. rewrite Hs3. reflexivity.
  - lia.
  - rewrite (second_completion s2 s3 (mkEnv 2 1900) (mkEnv 2 2000) 1 7 7 _ Ht)
      in Hf.
    + inversion Hf; subst. discriminate Hk.
    + left. rewrite Hs3. reflexivity.
    + lia.
Qed.

(** ** Range enforcement *)

(** C7 as stated does not hold: on a new contract, out-of-range arguments
    to [updateMentalHealthLevels] from an address without a profile, to
    [startCounselingSession] from a patient inside the cooldown, and to
    [createTherapyPlan] from an address other than the counselor are
    refused for those reasons, not for the range. *)
Lemma range_enforcement_as_stated_fails :
  transact (deploy (mkEnv 1 1000))
    (mkTx (mkEnv 2 1001) (call_updateMentalHealthLevels 11 0 0))
  = (deploy (mkEnv 1 1000), Failed (Error "Patient not registered"))
  /\ snd (run (deploy (mkEnv 1 1000))
            [mkTx (mkEnv 2 1001) (call_registerPatient 7 5 6);
             mkTx (mkEnv 2 1002) (call_startCounselingSession 5 8)])
     = [Succeeded [PatientRegistered 2 1001];
        Failed (Error "No session slots available")]
  /\ transact (deploy (mkEnv 1 1000))
       (mkTx (mkEnv 2 1001) (call_createTherapyPlan 2 21 1))
     = (deploy (mkEnv 1 1000), Failed (Error "Not authorized counselor"))
  /\ ~ range_enforcement_as_stated.
Proof.
  split; [reflexivity|]. split; [reflexivity|]. split; [reflexivity|].
  intros H.
  destruct (H (deploy (mkEnv 1 1000)) (mkEnv 2 1001))
    as (_ & Hupd & _).
  - apply reachable_deploy, wf_env_intro. reflexivity.
  - apply wf_env_intro. reflexivity.
  - assert (Hf' : transact (deploy (mkEnv 1 1000))
                    (mkTx (mkEnv 2 1001) (call_updateMentalHealthLevels 11 0 0))
                  = (deploy (mkEnv 1 1000),
                     Failed (Error "Patient not registered")))
      by reflexivity.
    destruct (Hupd 11 0 0) as [(f & Hf & Hk)|(f & Hf & Hk)];
      try reflexivity;
      rewrite Hf in Hf'; inversion Hf'; subst; discriminate Hk.
Qed.

(** C7, amended.  A call with a numeric argument out of its range is
    refused and changes nothing.  [registerPatient] with a level above 10
    and [completeSession] with a score above 10 are refused for the range
    whoever calls.  The other three check who calls first:
    [updateMentalHealthLevels] reports the range once the caller has a
    profile, [startCounselingSession] reports the session type, or else
    the severity, once the caller has a profile and the cooldown is over,
    and [createTherapyPlan] reports the range once the caller is the
    counselor and the patient has a profile; before that the error is
    "Patient not registered", "No session slots available" or "Not
    authorized counselor". *)
Theorem range_enforcement (s : Storage) (e : Env) :
  reachable s -> wf_env e ->
  (forall a d st, levels_ok a d st = false ->
     transact s (mkTx e (call_registerPatient a d st))
     = (s, Failed (Error "Levels must be 0-10")))
  /\ (forall id score, 10 < score ->
        transact s (mkTx e (call_completeSession id score))
        = (s, Failed (Error "Improvement score must be 0-10")))
  /\ (forall a d st, levels_ok a d st = false ->
        transact s (mkTx e (call_updateMentalHealthLevels a d st))
        = (s, Failed (Error (if isActive (profile_at s (msg_sender e))
                             then "Levels must be 0-10"
                             else "Patient not registered"))))
  /\ (forall ty sev, type_ok ty && severity_ok sev = false ->
        transact s (mkTx e (call_startCounselingSession ty sev))
        = (s, Failed (Error
               (if negb (isActive (profile_at s (msg_sender e)))
                then "Patient not registered"
                else if block_timestamp e <? lastSessionTime s + BREAK_DURATION
                then "No session slots available"
                else if type_ok ty then "Severity must be 1-10"
                else "Invalid session type"))))
  /\ (forall p n prio, plan_sessions_ok n && priority_ok prio = false ->
        transact s (mkTx e (call_createTherapyPlan p n prio))
        = (s, Failed (Error
               (if negb (msg_sender e =? counselor s)
                then "Not authorized counselor"
                else if negb (isActive (profile_at s p))
                then "Patient not registered"
                else if plan_sessions_ok n then "Priority must be 1-4"
                else "Sessions must be 1-20"))))
  /\ classify (Error "Levels must be 0-10") = Some OutOfRange
  /\ classify (Error "Improvement score must be 0-10") = Some OutOfRange
  /\ classify (Error "Severity must be 1-10") = Some OutOfRange
  /\ classify (Error "Invalid session type") = Some InvalidSessionType
  /\ classify (Error "Sessions must be 1-20") = Some OutOfRange
  /\ classify (Error "Priority must be 1-4") = Some OutOfRange.
Proof.
  intros Hr Hwf. pose proof (reachable_invariant s Hr) as Hinv.
  unfold transact; cbn [tx_env tx_call dispatch].
  repeat split.
  - intros a d st Hbad. rewrite registerPatient_cases, Hbad. reflexivity.
  - intros id score Hbad. rewrite completeSession_cases.
    apply N.leb_gt in Hbad. rewrite Hbad. reflexivity.
  - intros a d st Hbad. rewrite updateMentalHealthLevels_cases, Hbad.
    destruct (isActive (profile_at s (msg_sender e))); reflexivity.
  - intros ty sev Hbad. rewrite startCounselingSession_cases.
    destruct (isActive (profile_at s (msg_sender e))); [|reflexivity].
    cbn [negb].
    assert (Hle : (lastSessionTime s + BREAK_DURATION <=? UINT256_MAX) = true).
    { apply N.leb_le. pose proof (inv_time s Hinv).
      unfold TIMESTAMP_BOUND, BREAK_DURATION, UINT256_MAX in *. lia. }
    rewrite Hle. cbn [negb].
    rewrite N.ltb_antisym.
    destruct (lastSessionTime s + BREAK_DURATION <=? block_timestamp e);
      [|reflexivity].
    cbn [negb].
    destruct (type_ok ty); [|reflexivity].
    cbn [andb negb] in *. rewrite Hbad. reflexivity.
  - intros p n prio Hbad. rewrite createTherapyPlan_cases.
    destruct (msg_sender e =? counselor s); [|reflexivity].
    destruct (isActive (profile_at s p)); [|reflexivity].
    cbn [negb].
    destruct (plan_sessions_ok n); [|reflexivity].
    cbn [andb negb] in *. rewrite Hbad. reflexivity.
Qed.

Lemma range_enforcement_witness :
  transact (deploy (mkEnv 1 1000))
    (mkTx (mkEnv 2 1001) (call_registerPatient 11 5 6))
  = (deploy (mkEnv 1 1000), Failed (Error "Levels must be 0-10"))
  /\ transact (deploy (mkEnv 1 1000))
       (mkTx (mkEnv 2 1001) (call_startCounselingSession 5 8))
     = (deploy (mkEnv 1 1000), Failed (Error "Patient not registered")).
Proof.
  destruct (range_enforcement (deploy (mkEnv 1 1000)) (mkEnv 2 1001))
    as (Hreg & _ & _ & Hstart & _).
  - apply reachable_deploy, wf_env_intro. reflexivity.
  - apply wf_env_intro. reflexivity.
  - split.
    + apply Hreg. reflexivity.
    + apply (Hstart 5 8). reflexivity.
Defined.

(** ** Cooldown *)

Lemma busy_trace_S (p : address) (n : nat) :
  busy_trace p (S n) =
    busy_trace p n
    ++ [mkTx (mkEnv p (BREAK_DURATION * N.of_nat (S n)))
          (call_startCounselingSession 1 8)].
Proof.
  unfold busy_trace. rewrite seq_S, map_app. reflexivity.
Qed.

Lemma busy_trace_wf (n : nat) :
  (N.of_nat n <= 65534)%N ->
  Forall (fun tx => wf_env (tx_env tx)) (busy_trace 2 n).
Proof.
  induction n as [|n IH]; intros Hn.
  - unfold busy_trace. cbn [seq map].
    constructor; [apply wf_env_intro; reflexivity|constructor].
  - rewrite busy_trace_S. apply Forall_app. split.
    + apply IH. lia.
    + constructor; [|constructor].
      split; cbn [tx_env msg_sender block_timestamp].
      * discriminate.
      * unfold TIMESTAMP_BOUND, BREAK_DURATION. lia.
Qed.

(** After [n] sessions of the busy patient the next id is [n + 1]. *)
Lemma busy_state (n : nat) :
  (N.of_nat n <= 65534)%N ->
  currentSessionId (fst (run (deploy (mkEnv 1 0)) (busy_trace 2 n)))
  = 1 + N.of_nat n
  /\ lastSessionTime (fst (run (deploy (mkEnv 1 0)) (busy_trace 2 n)))
     = BREAK_DURATION * N.of_nat n
  /\ registered (fst (run (deploy (mkEnv 1 0)) (busy_trace 2 n))) 2.
Proof.
  induction n as [|n IH]; intros Hn.
  - repeat split; reflexivity.
  - destruct IH as (Hid & Hlast & Hreg); [lia|].
    rewrite busy_trace_S, run_app. cbn [fst].
    set (s := fst (run (deploy (mkEnv 1 0)) (busy_trace 2 n))) in *.
    rewrite run_cons. cbn [fst run].
    assert (Ht : transact s
                   (mkTx (mkEnv 2 (BREAK_DURATION * N.of_nat (S n)))
                      (call_startCounselingSession 1 8))
                 = (after_start (mkEnv 2 (BREAK_DURATION * N.of_nat (S n)))
                      1 8 s,
                    Succeeded
                      [SessionStarted (currentSessionId s) 2
                         (BREAK_DURATION * N.of_nat (S n))])).
    { unfold transact. cbn [tx_env tx_call dispatch].
      rewrite startCounselingSession_cases.
      cbn [msg_sender block_timestamp].
      unfold registered in Hreg. rewrite Hreg, Hlast, Hid.
      cbn [negb].
      assert (H1 : (BREAK_DURATION * N.of_nat n + BREAK_DURATION
                    <=? UINT256_MAX) = true).
      { apply N.leb_le. unfold BREAK_DURATION, UINT256_MAX. lia. }
      assert (H2 : (BREAK_DURATION * N.of_nat n + BREAK_DURATION
                    <=? BREAK_DURATION * N.of_nat (S n)) = true).
      { apply N.leb_le. unfold BREAK_DURATION. lia. }
      assert (H3 : (1 + N.of_nat n + 1 <=? UINT16_MAX) = true).
      { apply N.leb_le. unfold UINT16_MAX. lia. }
      rewrite H1, H2, H3. reflexivity. }
    rewrite Ht. cbn [fst]. split; [|split].
    + after_simpl. lia.
    + reflexivity.
    + change (after_start (mkEnv 2 (BREAK_DURATION * N.of_nat (S n))) 1 8 s)
        with (fst (after_start (mkEnv 2 (BREAK_DURATION * N.of_nat (S n)))
                     1 8 s,
                   Succeeded
                     [SessionStarted (currentSessionId s) 2
                        (BREAK_DURATION * N.of_nat (S n))])).
      rewrite <- Ht. apply registered_transact, Hreg.
Qed.

Lemma full_book_state :
  reachable full_book
  /\ currentSessionId full_book = UINT16_MAX
  /\ lastSessionTime full_book = BREAK_DURATION * 65534
  /\ registered full_book 2.
Proof.
  assert (Hn : N.of_nat (N.to_nat 65534) = 65534) by apply N2Nat.id.
  destruct (busy_state (N.to_nat 65534)) as (Hid & Hlast & Hreg).
  { rewrite Hn. lia. }
  unfold full_book. rewrite Hid, Hlast, Hn.
  split; [|split; [|split]].
  - apply reachable_run.
    + apply reachable_deploy, wf_env_intro. reflexivity.
    + apply busy_trace_wf. rewrite Hn. lia.
  - reflexivity.
  - reflexivity.
  - exact Hreg.
Qed.

(** C2 as stated does not hold.  Patient 2 has started session 1 at
    time 1800; at time 1900, before the deadline, address 3, which has no
    profile, is refused for that, not for the slot.  After 65534
    sessions, with the cooldown over, a registered patient with a valid
    request is refused: [currentSessionId++] overflows its 16 bits. *)
Lemma cooldown_as_stated_fails :
  snd (run (deploy (mkEnv 1 0))
         [mkTx (mkEnv 2 10) (call_registerPatient 7 5 6);
          mkTx (mkEnv 2 1800) (call_startCounselingSession 1 8);
          mkTx (mkEnv 3 1900) (call_startCounselingSession 1 8)])
  = [Succeeded [PatientRegistered 2 10];
     Succeeded [SessionStarted 1 2 1800];
     Failed (Error "Patient not registered")]
  /\ transact full_book
       (mkTx (mkEnv 2 (BREAK_DURATION * 65535))
          (call_startCounselingSession 1 8))
     = (full_book, Failed (Panic 0x11))
  /\ ~ cooldown_refuses_as_stated
  /\ ~ cooldown_allows_as_stated.
Proof.
  destruct full_book_state as (Hr & Hid & Hlast & Hreg).
  revert Hr Hid Hlast Hreg. generalize full_book.
  intros full_book Hr Hid Hlast Hreg.
  assert (Hfull : transact full_book
                    (mkTx (mkEnv 2 (BREAK_DURATION * 65535))
                       (call_startCounselingSession 1 8))
                  = (full_book, Failed (Panic 0x11))).
  { unfold transact. cbn [tx_env tx_call dispatch].
    rewrite startCounselingSession_cases.
    cbn [msg_sender block_timestamp].
    unfold registered in Hreg. rewrite Hreg, Hlast, Hid. reflexivity. }
  split; [reflexivity|]. split; [exact Hfull|]. split.
  - intros H.
    set (s2 := fst (run (deploy (mkEnv 1 0))
                      [mkTx (mkEnv 2 10) (call_registerPatient 7 5 6);
                       mkTx (mkEnv 2 1800)
                         (call_startCounselingSession 1 8)])).
    destruct (H s2 (mkEnv 3 1900) 1 8) as (f & Hf & Hk).
    + apply reachable_run.
      * apply reachable_deploy, wf_env_intro. reflexivity.
      * repeat constructor; apply wf_env_intro; reflexivity.
    + apply wf_env_intro. reflexivity.
    + apply N.ltb_lt. reflexivity.
    + apply N.ltb_lt. reflexivity.
    + assert (Hf' : snd (transact s2
                           (mkTx (mkEnv 3 1900)
                              (call_startCounselingSession 1 8)))
                    = Failed (Error "Patient not registered"))
        by reflexivity.
      rewrite Hf in Hf'. cbn [snd] in Hf'. inversion Hf'; subst.
      discriminate Hk.
  - intros H.
    destruct (H full_book (mkEnv 2 (BREAK_DURATION * 65535)) 1 8)
      as (s' & log & Hs & _).
    + exact Hr.
    + apply wf_env_intro. reflexivity.
    + rewrite Hid. reflexivity.
    + rewrite Hlast. cbn [block_timestamp]. unfold BREAK_DURATION. lia.
    + exact Hreg.
    + reflexivity.
    + reflexivity.
    + rewrite Hfull in Hs. discriminate Hs.
Qed.

(** What [startCounselingSession] does for a caller with an active
    profile, in a reachable storage: before [lastSessionTime +
    BREAK_DURATION] it is refused with "No session slots available",
    whatever its arguments; at or after it, with a session type in 1..4
    and a severity in 1..10, and while [currentSessionId] is below 65535,
    it goes through.  Every start that goes through sets
    [lastSessionTime] to the block timestamp. *)
Lemma start_by_registered (s : Storage) (e : Env) (ty sev : N) :
  reachable s -> wf_env e -> registered s (msg_sender e) ->
  (block_timestamp e < lastSessionTime s + BREAK_DURATION ->
   transact s (mkTx e (call_startCounselingSession ty sev))
   = (s, Failed (Error "No session slots available")))
  /\ (lastSessionTime s + BREAK_DURATION <= block_timestamp e ->
      type_ok ty = true -> severity_ok sev = true ->
      currentSessionId s < UINT16_MAX ->
      transact s (mkTx e (call_startCounselingSession ty sev))
      = (after_start e ty sev s,
         Succeeded [SessionStarted (currentSessionId s) (msg_sender e)
                      (block_timestamp e)]))
  /\ (forall s' log,
        transact s (mkTx e (call_startCounselingSession ty sev))
        = (s', Succeeded log) ->
        lastSessionTime s' = block_timestamp e
        /\ lastSessionTime s + BREAK_DURATION <= block_timestamp e)
  /\ BREAK_DURATION = 1800.
Proof.
  intros Hr Hwf Hreg. pose proof (reachable_invariant s Hr) as Hinv.
  assert (Hle : (lastSessionTime s + BREAK_DURATION <=? UINT256_MAX) = true).
  { apply N.leb_le. pose proof (inv_time s Hinv).
    unfold TIMESTAMP_BOUND, BREAK_DURATION, UINT256_MAX in *. lia. }
  unfold registered in Hreg.
  unfold transact; cbn [tx_env tx_call dispatch].
  rewrite startCounselingSession_cases, Hreg, Hle. cbn [negb].
  repeat split.
  - intros Hearly. apply N.leb_gt in Hearly. rewrite Hearly. reflexivity.
  - intros Hlate Hty Hsev Hid. apply N.leb_le in Hlate.
    rewrite Hlate, Hty, Hsev. cbn [negb].
    assert (H3 : (currentSessionId s + 1 <=? UINT16_MAX) = true).
    { apply N.leb_le. lia. }
    rewrite H3. reflexivity.
  - revert H. by_cases; intros H; inversion H; subst. reflexivity.
  - revert H. by_cases; intros H; inversion H; subst. boolp. assumption.
Qed.

(** ** Session ids *)

Lemma assigned_ids_cons (r : Receipt) (rs : list Receipt) :
  assigned_ids (r :: rs) = assigned_ids [r] ++ assigned_ids rs.
Proof.
  unfold assigned_ids. cbn [flat_map]. rewrite app_nil_r. reflexivity.
Qed.

(** One transaction: a start that goes through announces the current id,
    files the session under it and moves the counter by one; any other
    transaction announces no id, adds no session and leaves the counter. *)
Lemma transact_ids (s : Storage) (tx : Tx) :
  if is_start (tx_call tx) && succeeded (snd (transact s tx))
  then assigned_ids [snd (transact s tx)] = [currentSessionId s]
       /\ currentSessionId (fst (transact s tx)) = currentSessionId s + 1
       /\ (forall id, is_Some (sessions (fst (transact s tx)) !! id)
                      <-> is_Some (sessions s !! id)
                          \/ id = currentSessionId s)
  else assigned_ids [snd (transact s tx)] = []
       /\ currentSessionId (fst (transact s tx)) = currentSessionId s
       /\ (forall id, is_Some (sessions (fst (transact s tx)) !! id)
                      <-> is_Some (sessions s !! id)).
Proof.
  destruct (transact_cases s tx) as [[f Hf]|(s' & log & Ht & Hd)].
  { rewrite Hf. cbn [fst snd succeeded]. rewrite andb_false_r.
    repeat split; auto. }
  rewrite Ht. cbn [fst snd succeeded]. rewrite andb_true_r. clear Ht.
  destruct tx as [e c]. cbn [tx_env tx_call] in *.
  destruct c as [x y z|ty sev|id score|p n prio|x y z];
    cbn [dispatch is_start] in *; revert Hd; use_cases; by_cases;
    intros Hd; inversion Hd; subst; clear Hd.
  - (* registerPatient *)
    split; [|split; [reflexivity|intros; reflexivity]].
    unfold alert_log. destruct (emergency x y z); reflexivity.
  - (* startCounselingSession *)
    split; [reflexivity|]. split; [reflexivity|].
    intros id. after_simpl. rewrite lookup_insert_is_Some.
    split.
    + intros [<-|[_ H]]; auto.
    + intros [H| ->]; [|auto].
      destruct (decide (currentSessionId s = id)); auto.
  - (* completeSession *)
    split; [reflexivity|]. split; [reflexivity|].
    intros id'. after_simpl. rewrite lookup_insert_is_Some.
    boolp.
    match goal with
    | H : sessionActive _ = true |- _ =>
        pose proof (session_at_active s id H) as Hex
    end.
    split.
    + intros [<-|[_ H]]; eauto.
    + intros H. destruct (decide (id = id')); auto.
  - (* createTherapyPlan *)
    split; [reflexivity|]. split; [reflexivity|intros; reflexivity].
  - (* updateMentalHealthLevels *)
    split; [|split; [reflexivity|intros; reflexivity]].
    unfold alert_log. destruct (emergency x y z); reflexivity.
Qed.

Lemma run_ids (txs : list Tx) (s : Storage) :
  assigned_ids (snd (run s txs))
  = map (fun k => currentSessionId s + N.of_nat k)
      (seq 0 (successful_starts txs (snd (run s txs))))
  /\ currentSessionId (fst (run s txs))
     = currentSessionId s
       + N.of_nat (successful_starts txs (snd (run s txs)))
  /\ (forall id,
        is_Some (sessions (fst (run s txs)) !! id)
        <-> is_Some (sessions s !! id)
            \/ currentSessionId s <= id
               < currentSessionId s
                 + N.of_nat (successful_starts txs (snd (run s txs)))).
Proof.
  revert s. induction txs as [|tx txs IH]; intros s.
  - cbn. split; [reflexivity|]. split; [lia|]. intros id. split; [auto|].
    intros [H|H]; [exact H|lia].
  - rewrite run_cons. cbn [fst snd successful_starts].
    rewrite assigned_ids_cons.
    destruct (IH (fst (transact s tx))) as (IHids & IHnext & IHdom).
    pose proof (transact_ids s tx) as Hstep.
    set (n := successful_starts txs (snd (run (fst (transact s tx)) txs))) in *.
    destruct (is_start (tx_call tx) && succeeded (snd (transact s tx)));
      destruct Hstep as (Hid & Hnext & Hdom);
      rewrite Hid, IHids, IHnext, Hnext.
    + split; [|split].
      * cbn [Nat.add seq map app]. rewrite N.add_0_r. f_equal.
        rewrite <- seq_shift, map_map. apply map_ext. intros k. lia.
      * lia.
      * intros id. rewrite IHdom, Hdom, Hnext. split.
        -- intros [[H| ->]|H]; [auto|right; lia|right; lia].
        -- intros [H|H]; [auto|].
           destruct (decide (id = currentSessionId s)); [auto|].
           right. lia.
    + split; [|split].
      * reflexivity.
      * reflexivity.
      * intros id. rewrite IHdom, Hdom, Hnext. reflexivity.
Qed.

Lemma ids_upto_NoDup (n : nat) : NoDup (ids_upto n).
Proof.
  unfold ids_upto. apply NoDup_fmap_2.
  - intros x y H. lia.
  - apply NoDup_seq.
Qed.

(** C6.  Whatever transactions a contract has seen since its deployment,
    if [n] of them were starts that went through, then the ids they were
    given are 1, 2, ..., n in this order, without gap or repetition; the
    sessions on file are those of ids 1..n; the counter, 1 at deployment,
    stands at n + 1; and each transaction moves it by one if it is a
    start that goes through and leaves it otherwise. *)
Theorem session_ids_sequential (e : Env) (txs : list Tx) :
  currentSessionId (deploy e) = 1
  /\ assigned_ids (snd (run (deploy e) txs))
     = ids_upto (successful_starts txs (snd (run (deploy e) txs)))
  /\ NoDup (assigned_ids (snd (run (deploy e) txs)))
  /\ currentSessionId (fst (run (deploy e) txs))
     = N.of_nat (successful_starts txs (snd (run (deploy e) txs))) + 1
  /\ (forall id,
        is_Some (sessions (fst (run (deploy e) txs)) !! id)
        <-> 1 <= id
            <= N.of_nat (successful_starts txs (snd (run (deploy e) txs))))
  /\ (forall s tx,
        currentSessionId (fst (transact s tx))
        = currentSessionId s
          + (if is_start (tx_call tx) && succeeded (snd (transact s tx))
             then 1 else 0)).
Proof.
  destruct (run_ids txs (deploy e)) as (Hids & Hnext & Hdom).
  assert (Hone : currentSessionId (deploy e) = 1) by reflexivity.
  assert (Hlist : assigned_ids (snd (run (deploy e) txs))
                  = ids_upto (successful_starts txs
                                (snd (run (deploy e) txs)))).
  { rewrite Hids, Hone. unfold ids_upto.
    rewrite <- seq_shift, map_map. apply map_ext. intros k. lia. }
  split; [exact Hone|]. split; [exact Hlist|]. split; [|split; [|split]].
  - rewrite Hlist. apply ids_upto_NoDup.
  - rewrite Hnext, Hone. lia.
  - intros id. rewrite Hdom, Hone.
    assert (Hempty : sessions (deploy e) !! id = None) by reflexivity.
    rewrite Hempty. split.
    + intros [[x Hx]|H]; [discriminate|lia].
    + intros H. right. lia.
  - intros s tx. pose proof (transact_ids s tx) as Hstep.
    destruct (is_start (tx_call tx) && succeeded (snd (transact s tx)));
      destruct Hstep as (_ & Hnext' & _); rewrite Hnext'; lia.
Qed.

(** ** The scenario of section 8 *)

(** C1, at the failing input.  Counselor 1 deploys at time 1000 and
    every call of the scenario comes in that same block: patients 2 and 3
    register, and the first [startCounselingSession(1,8)] of patient 2 is
    refused with "No session slots available", which the specification
    calls NoSlotAvailable.  The constructor sets [lastSessionTime] to the
    deployment time, so the cooldown that should follow a session start
    also follows the deployment.  No session 1 comes about, and both
    completions are refused with "Not authorized".  Hence C1 as stated
    does not hold of the contract. *)
Theorem section8_same_block :
  snd (section8 1 1000 2 3 1000 1000 1000 1000 1000 (mkEnv 2 1000) 7)
  = [Succeeded [PatientRegistered 2 1000];
     Succeeded [PatientRegistered 3 1000];
     Failed (Error "No session slots available");
     Failed (Error "No session slots available");
     Failed (Error "Not authorized");
     Failed (Error "Not authorized")]
  /\ lastSessionTime (deploy (mkEnv 1 1000)) = 1000
  /\ classify (Error "No session slots available") = Some NoSlotAvailable
  /\ ~ section8_as_stated.
Proof.
  split; [reflexivity|]. split; [reflexivity|]. split; [reflexivity|].
  intros H.
  assert (Hrun' :
    snd (section8 1 1000 2 3 1000 1000 1000 1000 1000 (mkEnv 2 1000) 7)
    = [Succeeded [PatientRegistered 2 1000];
       Succeeded [PatientRegistered 3 1000];
       Failed (Error "No session slots available");
       Failed (Error "No session slots available");
       Failed (Error "Not authorized");
       Failed (Error "Not authorized")]) by reflexivity.
  destruct (H 1 2 3 1000 7) as (log1 & log2 & f4 & log5 & f6 & Hrun & _).
  - discriminate.
  - discriminate.
  - discriminate.
  - discriminate.
  - reflexivity.
  - rewrite Hrun in Hrun'. discriminate Hrun'.
Qed.

Lemma transact_dispatch_done (s s' : Storage) (e : Env) (c : Call)
    (log : list Event) :
  dispatch e c s = Done tt s' log ->
  transact s (mkTx e c) = (s', Succeeded log).
Proof. unfold transact. cbn [tx_env tx_call]. intros ->. reflexivity. Qed.

Lemma transact_dispatch_abort (s d : Storage) (e : Env) (c : Call)
    (f : Fault) :
  dispatch e c s = Abort f d ->
  transact s (mkTx e c) = (s, Failed f).
Proof. unfold transact. cbn [tx_env tx_call]. intros ->. reflexivity. Qed.

(** The rest of the scenario, with the first start made once
    [BREAK_DURATION] has passed since the deployment: the registration of
    a participant with (7,5,6) raises no alert; that participant's
    [startCounselingSession(1,8)] goes through and gets id 1; a start by
    another registered participant less than [BREAK_DURATION] later is
    refused with "No session slots available"; the owner's
    [completeSession(1,7)] goes through; and a further
    [completeSession(1, score)] is refused whoever calls and whatever the
    score, for the range of the score when it is above 10. *)
Lemma section8_scenario (c p1 p2 : address) (t0 t1 t2 t3 t4 t5 : N)
    (e6 : Env) (score : N) :
  p2 <> p1 -> t3 < TIMESTAMP_BOUND ->
  t0 + BREAK_DURATION <= t3 -> t4 < t3 + BREAK_DURATION ->
  exists f6,
    snd (section8 c t0 p1 p2 t1 t2 t3 t4 t5 e6 score)
    = [Succeeded [PatientRegistered p1 t1];
       Succeeded [PatientRegistered p2 t2];
       Succeeded [SessionStarted 1 p1 t3];
       Failed (Error "No session slots available");
       Succeeded [SessionCompleted 1 p1 t5];
       Failed f6]
    /\ (10 < score -> f6 = Error "Improvement score must be 0-10").
Proof.
  intros Hne Ht3 Hcool Hearly.
  unfold section8, section8_trace.
  set (s0 := deploy (mkEnv c t0)).
  set (e1 := mkEnv p1 t1). set (e2 := mkEnv p2 t2).
  set (e3 := mkEnv p1 t3). set (e4 := mkEnv p2 t4).
  set (e5 := mkEnv p1 t5).
  set (s1 := after_register e1 7 5 6 s0).
  set (s2 := after_register e2 6 5 7 s1).
  set (s3 := after_start e3 1 8 s2).
  set (s5 := after_complete e5 1 7 s3).
  assert (H1 : transact s0 (mkTx e1 (call_registerPatient 7 5 6))
               = (s1, Succeeded [PatientRegistered p1 t1])).
  { apply transact_dispatch_done. cbn [dispatch].
    rewrite registerPatient_cases. reflexivity. }
  assert (Hp2 : isActive (profile_at s1 p2) = false).
  { unfold profile_at, s1. after_simpl. cbn [msg_sender e1].
    rewrite lookup_insert_ne by auto. reflexivity. }
  assert (H2 : transact s1 (mkTx e2 (call_registerPatient 6 5 7))
               = (s2, Succeeded [PatientRegistered p2 t2])).
  { apply transact_dispatch_done. cbn [dispatch].
    rewrite registerPatient_cases. cbn [msg_sender e2]. rewrite Hp2.
    reflexivity. }
  assert (Hr1 : isActive (profile_at s2 p1) = true).
  { unfold profile_at, s2, s1. after_simpl. cbn [msg_sender e1 e2].
    rewrite lookup_insert_ne by auto. rewrite lookup_insert_eq.
    reflexivity. }
  assert (Hr2 : isActive (profile_at s2 p2) = true).
  { unfold profile_at, s2. after_simpl. cbn [msg_sender e2].
    rewrite lookup_insert_eq. reflexivity. }
  assert (Hlast2 : lastSessionTime s2 = t0) by reflexivity.
  assert (Hid2 : currentSessionId s2 = 1) by reflexivity.
  assert (H3 : transact s2 (mkTx e3 (call_startCounselingSession 1 8))
               = (s3, Succeeded [SessionStarted 1 p1 t3])).
  { apply transact_dispatch_done. cbn [dispatch].
    rewrite startCounselingSession_cases.
    cbn [msg_sender block_timestamp e3]. rewrite Hr1, Hlast2, Hid2.
    assert (Ha : (t0 + BREAK_DURATION <=? UINT256_MAX) = true).
    { apply N.leb_le.
      unfold TIMESTAMP_BOUND, BREAK_DURATION, UINT256_MAX in *. lia. }
    assert (Hb : (t0 + BREAK_DURATION <=? t3) = true)
      by (apply N.leb_le; exact Hcool).
    rewrite Ha, Hb. reflexivity. }
  assert (Hlast3 : lastSessionTime s3 = t3) by reflexivity.
  assert (H4 : transact s3 (mkTx e4 (call_startCounselingSession 2 7))
               = (s3, Failed (Error "No session slots available"))).
  { assert (Hr : isActive (profile_at s3 p2) = true) by exact Hr2.
    unfold transact. cbn [tx_env tx_call dispatch].
    rewrite startCounselingSession_cases.
    cbn [msg_sender block_timestamp e4]. rewrite Hr, Hlast3.
    assert (Ha : (t3 + BREAK_DURATION <=? UINT256_MAX) = true).
    { apply N.leb_le.
      unfold TIMESTAMP_BOUND, BREAK_DURATION, UINT256_MAX in *. lia. }
    assert (Hb : (t3 + BREAK_DURATION <=? t4) = false)
      by (apply N.leb_gt; exact Hearly).
    rewrite Ha, Hb. reflexivity. }
  assert (Hs3 : session_at s3 1 = new_session e3 1 8).
  { unfold session_at, s3. after_simpl. rewrite Hid2.
    rewrite lookup_insert_eq. reflexivity. }
  assert (H5 : transact s3 (mkTx e5 (call_completeSession 1 7))
               = (s5, Succeeded [SessionCompleted 1 p1 t5])).
  { apply transact_dispatch_done. cbn [dispatch].
    rewrite completeSession_cases, Hs3.
    cbn [new_session patient sessionActive sessionCompleted msg_sender
         block_timestamp e3 e5].
    rewrite N.eqb_refl. reflexivity. }
  assert (Hs5 : sessionActive (session_at s5 1) = false).
  { unfold session_at, s5. after_simpl. rewrite lookup_insert_eq.
    reflexivity. }
  assert (H6 : exists f6,
             transact s5 (mkTx e6 (call_completeSession 1 score))
             = (s5, Failed f6)
             /\ (10 < score -> f6 = Error "Improvement score must be 0-10")).
  { unfold transact. cbn [tx_env tx_call dispatch].
    rewrite completeSession_cases, Hs5. cbn [negb].
    destruct (score <=? 10) eqn:Hsc; cbn [negb].
    - destruct (_ || _); cbn [negb]; eexists; (split; [reflexivity|]);
        intros Hbig; apply N.leb_le in Hsc; lia.
    - eexists. split; reflexivity. }
  destruct H6 as (f6 & H6 & Hrange).
  exists f6. split; [|exact Hrange].
  rewrite run_cons, H1. cbn [fst snd].
  rewrite run_cons, H2. cbn [fst snd].
  rewrite run_cons, H3. cbn [fst snd].
  rewrite run_cons, H4. cbn [fst snd].
  rewrite run_cons, H5. cbn [fst snd].
  rewrite run_cons, H6. cbn [fst snd run].
  reflexivity.
Qed.

Lemma section8_scenario_witness :
  exists f6,
    snd (section8 1 0 2 3 10 20 1800 1801 1900 (mkEnv 2 2000) 11)
    = [Succeeded [PatientRegistered 2 10];
       Succeeded [PatientRegistered 3 20];
       Succeeded [SessionStarted 1 2 1800];
       Failed (Error "No session slots available");
       Succeeded [SessionCompleted 1 2 1900];
       Failed f6]
    /\ (10 < 11 -> f6 = Error "Improvement score must be 0-10").
Proof.
  apply (section8_scenario 1 2 3 0 10 20 1800 1801 1900 (mkEnv 2 2000) 11).
  - discriminate.
  - reflexivity.
  - apply N.leb_le. reflexivity.
  - reflexivity.
Defined.

(** ** What a transaction that goes through has done *)

Lemma transact_inv (s : Storage) (tx : Tx) :
  (exists f, transact s tx = (s, Failed f))
  \/ (exists s' log,
        transact s tx = (s', Succeeded log)
        /\ step_effect (tx_env tx) (tx_call tx) s s' log).
Proof.
  destruct (transact_cases s tx) as [Hf|(s' & log & Ht & Hd)];
    [left; exact Hf|].
  right. exists s', log. split; [exact Ht|]. clear Ht.
  destruct tx as [e c]. cbn [tx_env tx_call] in *.
  destruct c as [a d st|ty sev|id score|p n prio|a d st];
    cbn [dispatch step_effect] in *; revert Hd; use_cases; by_cases;
    intros Hd; inversion Hd; subst; clear Hd; boolp;
    repeat match goal with
           | H : ?b = true |- _ => rewrite H
           end;
    repeat split; auto.
  - match goal with H : _ || _ = true |- _ => apply orb_prop in H; destruct H end;
      boolp; auto.
Qed.

Lemma step_registered (s s' : Storage) (tx : Tx) (r : Receipt) (a : address) :
  transact s tx = (s', r) ->
  isActive (profile_at s a) = true -> isActive (profile_at s' a) = true.
Proof.
  intros Ht Ha. change s' with (fst (s', r)). rewrite <- Ht.
  apply registered_transact, Ha.
Qed.

(** ** Session ids on file *)

Lemma ids_below_spec (next id : N) :
  id ∈ ids_below next <-> 1 <= id < next.
Proof.
  unfold ids_below, ids_upto. rewrite list_elem_of_In, in_map_iff. split.
  - intros (k & <- & Hk). apply in_seq in Hk. lia.
  - intros Hid. exists (N.to_nat id). split; [lia|]. apply in_seq. lia.
Qed.

Lemma ids_below_succ (cur : N) :
  1 <= cur -> ids_below (cur + 1) = ids_below cur ++ [cur].
Proof.
  intros Hcur. unfold ids_below, ids_upto.
  replace (N.to_nat (cur + 1 - 1)) with (S (N.to_nat (cur - 1))) by lia.
  rewrite seq_S, map_app. cbn [map]. do 2 f_equal. lia.
Qed.

Lemma filter_ext_elem {A} (P Q : A -> Prop)
    `{forall x, Decision (P x)} `{forall x, Decision (Q x)} (l : list A) :
  (forall x, x ∈ l -> (P x <-> Q x)) -> filter P l = filter Q l.
Proof.
  induction l as [|x l IH]; intros Hext; [reflexivity|].
  rewrite !filter_cons.
  assert (Hx : P x <-> Q x) by (apply Hext; left).
  rewrite IH by (intros y Hy; apply Hext; right; exact Hy).
  destruct (decide (P x)), (decide (Q x)); tauto.
Qed.

Lemma session_at_lookup (s : Storage) (id : N) (x : CounselingSession) :
  sessions s !! id = Some x -> session_at s id = x.
Proof. unfold session_at. intros ->. reflexivity. Qed.

(** ** Bookkeeping is kept *)

Lemma bookkeeping_deploy (e : Env) : bookkeeping (deploy e).
Proof.
  split; try (intros ? ? H; cbn in H; rewrite lookup_empty in H; discriminate).
  - intros id id' x x' H. cbn in H. rewrite lookup_empty in H. discriminate.
  - intros a. reflexivity.
  - reflexivity.
Qed.

Lemma bookkeeping_same_sessions (s s' : Storage) :
  bookkeeping s ->
  sessions s' = sessions s ->
  currentSessionId s' = currentSessionId s ->
  lastSessionTime s' = lastSessionTime s ->
  patientSessions s' = patientSessions s ->
  (forall a, isActive (profile_at s a) = true ->
             isActive (profile_at s' a) = true) ->
  (forall a p, therapyPlans s' !! a = Some p ->
               planActive p = true /\ isActive (profile_at s' a) = true) ->
  bookkeeping s'.
Proof.
  intros [Hown Hopen Hst Hsp Hplan Hidx Hsz] Hs Hid Hlast Hps Hreg Hplan'.
  assert (Hat : forall id, session_at s' id = session_at s id).
  { intros id. unfold session_at. rewrite Hs. reflexivity. }
  split.
  - intros id x Hx. rewrite Hs in Hx. eauto.
  - intros id x Hx. rewrite Hs in Hx. eauto.
  - intros id x Hx. rewrite Hs in Hx. rewrite Hlast. eauto.
  - intros id id' x x' Hx Hx'. rewrite Hs in Hx, Hx'. eauto.
  - exact Hplan'.
  - intros a. unfold sessions_of, owned_ids. rewrite Hps, Hid.
    unfold sessions_of, owned_ids in Hidx. rewrite Hidx.
    apply filter_ext_elem. intros id _. rewrite Hat. reflexivity.
  - rewrite Hs, Hid. exact Hsz.
Qed.

Lemma bookkeeping_transact (s : Storage) (tx : Tx) :
  invariant s -> bookkeeping s -> wf_env (tx_env tx) ->
  bookkeeping (fst (transact s tx)).
Proof.
  intros Hinv Hbk Hwf.
  destruct (transact_inv s tx) as [[f Hf]|(s' & log & Ht & Heff)].
  { rewrite Hf. exact Hbk. }
  rewrite Ht. cbn [fst].
  assert (Hreg : forall a, isActive (profile_at s a) = true ->
                           isActive (profile_at s' a) = true).
  { intros a. apply (step_registered s s' tx _ a Ht). }
  clear Ht.
  destruct tx as [e c]. cbn [tx_env tx_call] in *.
  destruct Hinv as [Hlo Hhi Htime Hdom Hsess].
  destruct c as [a d st|ty sev|id score|p n prio|a d st];
    cbn [step_effect] in Heff.
  - (* registerPatient *)
    destruct Heff as (_ & _ & -> & _).
    apply (bookkeeping_same_sessions s); try reflexivity; try assumption.
    intros b q Hq. destruct (bk_plan s Hbk b q Hq) as [Hq1 Hq2]. auto.
  - (* startCounselingSession *)
    destruct Heff as (Hact & Hcool & _ & _ & Hmax & -> & _).
    destruct Hbk as [Hown Hopen Hst Hsp Hplan Hidx Hsz].
    assert (Hfresh : sessions s !! currentSessionId s = None).
    { destruct (sessions s !! currentSessionId s) eqn:Hx; [|reflexivity].
      assert (Hs : is_Some (sessions s !! currentSessionId s)) by eauto.
      apply Hdom in Hs. lia. }
    assert (Hold : forall id x, sessions s !! id = Some x ->
                                id < currentSessionId s).
    { intros id x Hx. assert (Hs : is_Some (sessions s !! id)) by eauto.
      apply Hdom in Hs. lia. }
    split.
    + intros id x. after_simpl. rewrite lookup_insert. case_decide.
      * intros Hx. inversion Hx; subst. cbn [new_session patient].
        apply Hreg, Hact.
      * intros Hx. apply Hreg. eauto.
    + intros id x. after_simpl. rewrite lookup_insert. case_decide.
      * intros Hx. inversion Hx; subst. cbn. auto.
      * eauto.
    + intros id x. after_simpl. rewrite lookup_insert. case_decide.
      * intros Hx. inversion Hx; subst. cbn. lia.
      * intros Hx. specialize (Hst id x Hx). lia.
    + intros id id' x x'. after_simpl. rewrite !lookup_insert.
      repeat case_decide; subst.
      * lia.
      * intros _ Hx' Hlt. apply Hold in Hx'. lia.
      * intros Hx Hx' _. inversion Hx'; subst. cbn.
        specialize (Hst id x Hx). lia.
      * eauto.
    + intros a q Hq. destruct (Hplan a q Hq) as [Hq1 Hq2]. auto.
    + intros a.
      assert (Hcur : currentSessionId (after_start e ty sev s)
                     = currentSessionId s + 1) by reflexivity.
      assert (Hnew : patient (session_at (after_start e ty sev s)
                                (currentSessionId s)) = msg_sender e).
      { unfold session_at. after_simpl. rewrite lookup_insert_eq.
        reflexivity. }
      assert (Hrest :
        filter (fun id => patient
                  (session_at (after_start e ty sev s) id) = a)
          (ids_below (currentSessionId s))
        = owned_ids s a).
      { unfold owned_ids. apply filter_ext_elem. intros id Hid.
        apply ids_below_spec in Hid. unfold session_at. after_simpl.
        rewrite lookup_insert_ne by lia. reflexivity. }
      assert (Hps : sessions_of (after_start e ty sev s) a
                    = if decide (msg_sender e = a)
                      then sessions_of s a ++ [currentSessionId s]
                      else sessions_of s a).
      { unfold sessions_of at 1. after_simpl. rewrite lookup_insert.
        case_decide; subst; reflexivity. }
      unfold owned_ids. rewrite Hcur, ids_below_succ by exact Hlo.
      rewrite filter_app, Hrest, filter_cons, filter_nil, Hnew, Hps, <- Hidx.
      destruct (decide (msg_sender e = a));
        [reflexivity|rewrite app_nil_r; reflexivity].
    + after_simpl. rewrite map_size_insert_None by exact Hfresh. lia.
  - (* completeSession *)
    destruct Heff as (_ & _ & Hactive & _ & -> & _).
    pose proof (session_at_active s id Hactive) as Hex.
    destruct Hbk as [Hown Hopen Hst Hsp Hplan Hidx Hsz].
    assert (Hpat : forall id', patient
                     (session_at (after_complete e id score s) id')
                   = patient (session_at s id')).
    { intros id'. unfold session_at. after_simpl. rewrite lookup_insert.
      case_decide; subst; reflexivity. }
    split.
    + intros id' x. after_simpl. rewrite lookup_insert. case_decide.
      * intros Hx. inversion Hx; subst. cbn [completed_session patient].
        apply Hreg. eauto.
      * intros Hx. apply Hreg. eauto.
    + intros id' x. after_simpl. rewrite lookup_insert. case_decide.
      * intros Hx. inversion Hx; subst. cbn. discriminate.
      * eauto.
    + intros id' x. after_simpl. rewrite lookup_insert. case_decide.
      * intros Hx. inversion Hx; subst. cbn. eauto.
      * eauto.
    + intros i i' x x'. after_simpl. rewrite !lookup_insert.
      repeat case_decide; subst; intros Hx Hx' Hlt;
        try (inversion Hx; subst); try (inversion Hx'; subst);
        cbn [completed_session startTime]; eauto; lia.
    + intros a q Hq. destruct (Hplan a q Hq) as [Hq1 Hq2]. auto.
    + intros a. unfold owned_ids.
      transitivity (owned_ids s a); [apply Hidx|].
      unfold owned_ids. apply filter_ext_elem. intros i _.
      rewrite Hpat. reflexivity.
    + after_simpl. rewrite map_size_insert_Some by eauto. exact Hsz.
  - (* createTherapyPlan *)
    destruct Heff as (_ & Hp & _ & _ & -> & _).
    apply (bookkeeping_same_sessions s); try reflexivity; try assumption.
    intros b q. after_simpl. rewrite lookup_insert. case_decide.
    + intros Hq. inversion Hq; subst. cbn. split; [reflexivity|].
      apply Hreg, Hp.
    + intros Hq. destruct (bk_plan s Hbk b q Hq) as [Hq1 Hq2]. auto.
  - (* updateMentalHealthLevels *)
    destruct Heff as (_ & _ & -> & _).
    apply (bookkeeping_same_sessions s); try reflexivity; try assumption.
    intros b q Hq. destruct (bk_plan s Hbk b q Hq) as [Hq1 Hq2]. auto.
Qed.

Lemma reachable_bookkeeping (s : Storage) : reachable s -> bookkeeping s.
Proof.
  induction 1 as [e He|s tx Hr IH Hwf].
  - apply bookkeeping_deploy.
  - apply bookkeeping_transact; [apply reachable_invariant| |]; assumption.
Qed.

(** ** The counselor and the clock *)

Ltac step_cases s tx s' log Ht Heff :=
  destruct (transact_inv s tx) as [[?f Ht]|(s' & log & Ht & Heff)];
  [ rewrite Ht; cbn [fst snd]
  | rewrite Ht; cbn [fst snd];
    destruct tx as [?e [?a ?d ?st|?ty ?sev|?id ?score|?p ?n ?prio|?a ?d ?st]];
    cbn [step_effect tx_env tx_call] in * ].

Lemma counselor_transact (s : Storage) (tx : Tx) :
  counselor (fst (transact s tx)) = counselor s.
Proof.
  step_cases s tx s' log Ht Heff; [reflexivity|..];
    decompose [and] Heff; subst; reflexivity.
Qed.

(** X1.  The counselor is the deployer for good: no transaction, by
    anyone, changes [counselor]. *)
Theorem counselor_fixed (e : Env) (txs : list Tx) :
  counselor (fst (run (deploy e) txs)) = msg_sender e.
Proof.
  assert (Hrun : forall s, counselor (fst (run s txs)) = counselor s).
  { induction txs as [|tx txs IH]; intros s; [reflexivity|].
    rewrite run_cons. cbn [fst]. rewrite IH. apply counselor_transact. }
  rewrite Hrun. reflexivity.
Qed.

Lemma lastSessionTime_transact (s : Storage) (tx : Tx) :
  lastSessionTime s <= lastSessionTime (fst (transact s tx)).
Proof.
  step_cases s tx s' log Ht Heff; [lia|..];
    decompose [and] Heff; subst; after_simpl; unfold BREAK_DURATION in *; lia.
Qed.

(** X2.  [lastSessionTime] never goes back, whatever the transactions
    and whatever their timestamps: a start is accepted only at or after
    [lastSessionTime + BREAK_DURATION], and nothing else writes it. *)
Theorem lastSessionTime_monotone (s : Storage) (txs : list Tx) :
  lastSessionTime s <= lastSessionTime (fst (run s txs)).
Proof.
  revert s. induction txs as [|tx txs IH]; intros s; [cbn; lia|].
  rewrite run_cons. cbn [fst].
  pose proof (lastSessionTime_transact s tx).
  pose proof (IH (fst (transact s tx))). lia.
Qed.

(** X3.  Any two sessions on file were started at least [BREAK_DURATION]
    (1800 seconds) apart, in the order of their ids, whoever started
    them: the cooldown is one for the whole contract. *)
Theorem sessions_spaced (s : Storage) (id id' : N)
    (x x' : CounselingSession) :
  reachable s ->
  sessions s !! id = Some x -> sessions s !! id' = Some x' -> id < id' ->
  startTime x + 1800 <= startTime x'.
Proof.
  intros Hr Hx Hx' Hlt.
  exact (bk_spaced s (reachable_bookkeeping s Hr) id id' x x' Hx Hx' Hlt).
Qed.

Lemma sessions_spaced_witness :
  startTime (session_at
               (fst (run (deploy (mkEnv 1 0))
                       [mkTx (mkEnv 2 10) (call_registerPatient 7 5 6);
                        mkTx (mkEnv 2 1800) (call_startCounselingSession 1 8);
                        mkTx (mkEnv 2 3700) (call_startCounselingSession 2 6)]))
               1) + 1800
  <= startTime (session_at
                  (fst (run (deploy (mkEnv 1 0))
                          [mkTx (mkEnv 2 10) (call_registerPatient 7 5 6);
                           mkTx (mkEnv 2 1800)
                             (call_startCounselingSession 1 8);
                           mkTx (mkEnv 2 3700)
                             (call_startCounselingSession 2 6)]))
                  2).
Proof.
  apply (sessions_spaced
           (fst (run (deploy (mkEnv 1 0))
                   [mkTx (mkEnv 2 10) (call_registerPatient 7 5 6);
                    mkTx (mkEnv 2 1800) (call_startCounselingSession 1 8);
                    mkTx (mkEnv 2 3700) (call_startCounselingSession 2 6)]))
           1 2).
  - apply reachable_run.
    + apply reachable_deploy, wf_env_intro. reflexivity.
    + repeat constructor; apply wf_env_intro; reflexivity.
  - reflexivity.
  - reflexivity.
  - reflexivity.
Defined.

(** ** The life of a session *)

Lemma session_step (s : Storage) (tx : Tx) (id : N) (x : CounselingSession) :
  invariant s -> sessions s !! id = Some x ->
  exists x',
    sessions (fst (transact s tx)) !! id = Some x'
    /\ patient x' = patient x /\ startTime x' = startTime x
    /\ sessionType x' = sessionType x /\ severityLevel x' = severityLevel x
    /\ (sessionCompleted x = true -> x' = x)
    /\ (msg_sender (tx_env tx) <> patient x ->
        msg_sender (tx_env tx) <> counselor s -> x' = x).
Proof.
  intros Hinv Hx.
  assert (Hkeep : exists x', Some x = Some x'
            /\ patient x' = patient x /\ startTime x' = startTime x
            /\ sessionType x' = sessionType x
            /\ severityLevel x' = severityLevel x
            /\ (sessionCompleted x = true -> x' = x)
            /\ (msg_sender (tx_env tx) <> patient x ->
                msg_sender (tx_env tx) <> counselor s -> x' = x)).
  { exists x. repeat split; auto. }
  step_cases s tx s' log Ht Heff; try (rewrite Hx; exact Hkeep).
  - (* registerPatient *)
    destruct Heff as (_ & _ & -> & _). after_simpl. rewrite Hx. exact Hkeep.
  - (* startCounselingSession *)
    destruct Heff as (_ & _ & _ & _ & _ & -> & _). after_simpl.
    assert (Hs : is_Some (sessions s !! id)) by eauto.
    apply (inv_dom s Hinv) in Hs.
    rewrite lookup_insert_ne by lia. rewrite Hx. exact Hkeep.
  - (* completeSession *)
    destruct Heff as (_ & Hwho & Hact & Hcomp & -> & _). after_simpl.
    rewrite lookup_insert. case_decide; [|rewrite Hx; exact Hkeep].
    subst. rewrite (session_at_lookup s id x Hx) in *.
    eexists. split; [reflexivity|]. cbn.
    repeat split; try reflexivity.
    + intros Hc. congruence.
    + intros Hp Hc. destruct Hwho; congruence.
  - (* createTherapyPlan *)
    destruct Heff as (_ & _ & _ & _ & -> & _). after_simpl.
    rewrite Hx. exact Hkeep.
  - (* updateMentalHealthLevels *)
    destruct Heff as (_ & _ & -> & _). after_simpl. rewrite Hx. exact Hkeep.
Qed.

(** X4.  A session, once created, stays on file under its id with the
    same owner, start time, type and severity, whatever happens next; and
    once it is completed its record never changes again. *)
Theorem session_record_kept (s : Storage) (txs : list Tx) (id : N)
    (x : CounselingSession) :
  reachable s -> Forall (fun tx => wf_env (tx_env tx)) txs ->
  sessions s !! id = Some x ->
  exists x',
    sessions (fst (run s txs)) !! id = Some x'
    /\ patient x' = patient x /\ startTime x' = startTime x
    /\ sessionType x' = sessionType x /\ severityLevel x' = severityLevel x
    /\ (sessionCompleted x = true -> x' = x).
Proof.
  intros Hr Hwf. revert s x Hr.
  induction Hwf as [|tx txs Htx Hwf IH]; intros s x Hr Hx.
  - exists x. repeat split; auto.
  - rewrite run_cons. cbn [fst].
    destruct (session_step s tx id x (reachable_invariant s Hr) Hx)
      as (x1 & Hx1 & Hp & Hst & Hty & Hsev & Hfin & _).
    destruct (IH (fst (transact s tx)) x1) as
      (x2 & Hx2 & Hp2 & Hst2 & Hty2 & Hsev2 & Hfin2).
    + apply reachable_transact; assumption.
    + exact Hx1.
    + exists x2. split; [exact Hx2|].
      repeat split; try congruence.
      intros Hc. specialize (Hfin Hc). subst x1. auto.
Qed.

Lemma session_record_kept_witness :
  exists x',
    sessions (fst (run (fst (run (deploy (mkEnv 1 0))
                               [mkTx (mkEnv 2 10) (call_registerPatient 7 5 6);
                                mkTx (mkEnv 2 1800)
                                  (call_startCounselingSession 1 8)]))
                     [mkTx (mkEnv 2 1900) (call_completeSession 1 7)]))
      !! 1 = Some x'
    /\ patient x' = 2 /\ startTime x' = 1800.
Proof.
  destruct (session_record_kept
              (fst (run (deploy (mkEnv 1 0))
                      [mkTx (mkEnv 2 10) (call_registerPatient 7 5 6);
                       mkTx (mkEnv 2 1800)
                         (call_startCounselingSession 1 8)]))
              [mkTx (mkEnv 2 1900) (call_completeSession 1 7)] 1
              (new_session (mkEnv 2 1800) 1 8))
    as (x' & Hx' & Hp & Hst & _).
  - apply reachable_run.
    + apply reachable_deploy, wf_env_intro. reflexivity.
    + repeat constructor; apply wf_env_intro; reflexivity.
  - repeat constructor; apply wf_env_intro; reflexivity.
  - reflexivity.
  - exists x'. split; [exact Hx'|]. split; [exact Hp|exact Hst].
Defined.

(** X5.  Only the owner of a session and the counselor can change its
    record: a transaction from any other address leaves it as it is. *)
Theorem session_closed_to_strangers (s : Storage) (tx : Tx) (id : N)
    (x : CounselingSession) :
  reachable s -> sessions s !! id = Some x ->
  msg_sender (tx_env tx) <> patient x ->
  msg_sender (tx_env tx) <> counselor s ->
  sessions (fst (transact s tx)) !! id = Some x.
Proof.
  intros Hr Hx Hp Hc.
  destruct (session_step s tx id x (reachable_invariant s Hr) Hx)
    as (x' & Hx' & _ & _ & _ & _ & _ & Hsame).
  rewrite Hx'. f_equal. apply Hsame; assumption.
Qed.

Lemma session_closed_to_strangers_witness :
  sessions (fst (transact
                   (fst (run (deploy (mkEnv 1 0))
                           [mkTx (mkEnv 2 10) (call_registerPatient 7 5 6);
                            mkTx (mkEnv 2 1800)
                              (call_startCounselingSession 1 8)]))
                   (mkTx (mkEnv 3 1900) (call_completeSession 1 7))))
    !! 1 = Some (new_session (mkEnv 2 1800) 1 8).
Proof.
  apply (session_closed_to_strangers
           (fst (run (deploy (mkEnv 1 0))
                   [mkTx (mkEnv 2 10) (call_registerPatient 7 5 6);
                    mkTx (mkEnv 2 1800) (call_startCounselingSession 1 8)]))
           (mkTx (mkEnv 3 1900) (call_completeSession 1 7)) 1).
  - apply reachable_run.
    + apply reachable_deploy, wf_env_intro. reflexivity.
    + repeat constructor; apply wf_env_intro; reflexivity.
  - reflexivity.
  - discriminate.
  - discriminate.
Defined.

(** ** Profiles and plans *)

(** X6.  A transaction writes no profile but its sender's: the profile
    of every other address is left as it is. *)
Theorem profile_of_others_untouched (s : Storage) (tx : Tx) (a : address) :
  a <> msg_sender (tx_env tx) ->
  patientProfiles (fst (transact s tx)) !! a = patientProfiles s !! a.
Proof.
  intros Ha.
  step_cases s tx s' log Ht Heff; [reflexivity|..];
    decompose [and] Heff; subst; after_simpl; try reflexivity;
    rewrite lookup_insert_ne by auto; reflexivity.
Qed.

Lemma profile_of_others_untouched_witness :
  patientProfiles
    (fst (transact (fst (transact (deploy (mkEnv 1 0))
                           (mkTx (mkEnv 2 10) (call_registerPatient 7 5 6))))
            (mkTx (mkEnv 3 20) (call_registerPatient 9 9 9)))) !! 2
  = patientProfiles
      (fst (transact (deploy (mkEnv 1 0))
              (mkTx (mkEnv 2 10) (call_registerPatient 7 5 6)))) !! 2.
Proof.
  apply (profile_of_others_untouched
           (fst (transact (deploy (mkEnv 1 0))
                   (mkTx (mkEnv 2 10) (call_registerPatient 7 5 6))))
           (mkTx (mkEnv 3 20) (call_registerPatient 9 9 9)) 2).
  discriminate.
Defined.

Lemma registrationTime_transact (s : Storage) (tx : Tx) (a : address) :
  isActive (profile_at s a) = true ->
  registrationTime (profile_at (fst (transact s tx)) a)
  = registrationTime (profile_at s a).
Proof.
  intros Ha.
  step_cases s tx s' log Ht Heff; [reflexivity|..];
    decompose [and] Heff; subst; unfold profile_at in *; after_simpl;
    try reflexivity;
    rewrite lookup_insert; case_decide; subst; cbn;
    first [reflexivity|congruence].
Qed.

(** X7.  The registration time of a profile is written once: no update
    of the levels, and no other transaction, changes it. *)
Theorem registration_time_fixed (s : Storage) (txs : list Tx) (a : address) :
  registered s a ->
  registrationTime (profile_at (fst (run s txs)) a)
  = registrationTime (profile_at s a).
Proof.
  revert s. induction txs as [|tx txs IH]; intros s Ha; [reflexivity|].
  rewrite run_cons. cbn [fst]. rewrite IH.
  - apply registrationTime_transact, Ha.
  - apply registered_transact, Ha.
Qed.

Lemma registration_time_fixed_witness :
  registrationTime
    (profile_at
       (fst (run (fst (transact (deploy (mkEnv 1 0))
                         (mkTx (mkEnv 2 10) (call_registerPatient 7 5 6))))
               [mkTx (mkEnv 2 500) (call_updateMentalHealthLevels 1 2 3)]))
       2)
  = 10.
Proof.
  rewrite (registration_time_fixed
             (fst (transact (deploy (mkEnv 1 0))
                     (mkTx (mkEnv 2 10) (call_registerPatient 7 5 6))))
             [mkTx (mkEnv 2 500) (call_updateMentalHealthLevels 1 2 3)] 2).
  - reflexivity.
  - reflexivity.
Defined.

(** X8.  A therapy plan changes only when the counselor calls
    [createTherapyPlan] for that very patient. *)
Theorem plan_changes_by_counselor_only (s : Storage) (tx : Tx)
    (a : address) :
  therapyPlans (fst (transact s tx)) !! a <> therapyPlans s !! a ->
  msg_sender (tx_env tx) = counselor s
  /\ exists n prio, tx_call tx = call_createTherapyPlan a n prio.
Proof.
  step_cases s tx s' log Ht Heff; intros Hdiff;
    try (exfalso; apply Hdiff; reflexivity);
    decompose [and] Heff; subst;
    try (exfalso; apply Hdiff; reflexivity).
  revert Hdiff. after_simpl. rewrite lookup_insert. case_decide.
  - subst. intros _. split; [assumption|]. eauto.
  - intros Hdiff. exfalso. apply Hdiff. reflexivity.
Qed.

Lemma plan_changes_by_counselor_only_witness :
  msg_sender (mkEnv 1 50) = counselor
    (fst (transact (deploy (mkEnv 1 0))
            (mkTx (mkEnv 2 10) (call_registerPatient 7 5 6))))
  /\ exists n prio,
       call_createTherapyPlan 2 12 4 = call_createTherapyPlan 2 n prio.
Proof.
  apply (plan_changes_by_counselor_only
           (fst (transact (deploy (mkEnv 1 0))
                   (mkTx (mkEnv 2 10) (call_registerPatient 7 5 6))))
           (mkTx (mkEnv 1 50) (call_createTherapyPlan 2 12 4)) 2).
  discriminate.
Defined.

(** X9.  Every plan on file is active and is the plan of a registered
    patient: [getTherapyPlanStatus] answers (false, 0) exactly for the
    addresses without a plan. *)
Theorem plans_on_file (s : Storage) (a : address) :
  reachable s ->
  (forall p, therapyPlans s !! a = Some p ->
             planActive p = true /\ registered s a)
  /\ (getTherapyPlanStatus a s = Done (false, 0) s []
      <-> therapyPlans s !! a = None).
Proof.
  intros Hr. pose proof (bk_plan s (reachable_bookkeeping s Hr) a) as Hplan.
  split; [exact Hplan|].
  sol_unfold. unfold plan_at.
  destruct (therapyPlans s !! a) as [p|] eqn:Hp; cbn.
  - destruct (Hplan p eq_refl) as [Hact _]. rewrite Hact.
    split; intros H; discriminate H.
  - split; reflexivity.
Qed.

Lemma plans_on_file_witness :
  therapyPlans
    (fst (run (deploy (mkEnv 1 0))
            [mkTx (mkEnv 2 10) (call_registerPatient 7 5 6);
             mkTx (mkEnv 1 50) (call_createTherapyPlan 2 12 4)])) !! 2
  = Some (mkTherapyPlan (FHE.asEuint8 12) (FHE.asEuint8 4) true 50)
  /\ planActive (mkTherapyPlan (FHE.asEuint8 12) (FHE.asEuint8 4) true 50)
     = true
  /\ registered
       (fst (run (deploy (mkEnv 1 0))
               [mkTx (mkEnv 2 10) (call_registerPatient 7 5 6);
                mkTx (mkEnv 1 50) (call_createTherapyPlan 2 12 4)]))
       2
  /\ getTherapyPlanStatus 2
       (fst (run (deploy (mkEnv 1 0))
               [mkTx (mkEnv 2 10) (call_registerPatient 7 5 6);
                mkTx (mkEnv 1 50) (call_createTherapyPlan 2 12 4)]))
     <> Done (false, 0)
          (fst (run (deploy (mkEnv 1 0))
                  [mkTx (mkEnv 2 10) (call_registerPatient 7 5 6);
                   mkTx (mkEnv 1 50) (call_createTherapyPlan 2 12 4)]))
          [].
Proof.
  destruct (plans_on_file
              (fst (run (deploy (mkEnv 1 0))
                      [mkTx (mkEnv 2 10) (call_registerPatient 7 5 6);
                       mkTx (mkEnv 1 50) (call_createTherapyPlan 2 12 4)]))
              2) as (Hplan & Hstatus).
  - apply reachable_run.
    + apply reachable_deploy, wf_env_intro. reflexivity.
    + repeat constructor; apply wf_env_intro; reflexivity.
  - split; [reflexivity|].
    destruct (Hplan (mkTherapyPlan (FHE.asEuint8 12) (FHE.asEuint8 4) true 50))
      as (Hactive & Hreg); [reflexivity|].
    split; [exact Hactive|]. split; [exact Hreg|].
    intros Hq. apply Hstatus in Hq. discriminate Hq.
Defined.

(** ** Counting sessions *)

(** X10.  The list [patientSessions[a]] holds the ids of the sessions
    owned by [a], each once and in increasing order, and
    [getPatientSessionCount] returns their number. *)
Theorem patient_sessions_index (s : Storage) (a : address) :
  reachable s ->
  sessions_of s a = owned_ids s a
  /\ getPatientSessionCount a s
     = Done (N.of_nat (length (owned_ids s a))) s []
  /\ (forall id, id ∈ sessions_of s a
                 <-> exists x, sessions s !! id = Some x /\ patient x = a)
  /\ NoDup (sessions_of s a).
Proof.
  intros Hr. pose proof (reachable_invariant s Hr) as Hinv.
  pose proof (bk_index s (reachable_bookkeeping s Hr) a) as Hidx.
  split; [exact Hidx|]. split; [|split].
  - sol_unfold. rewrite Hidx. reflexivity.
  - intros id. rewrite Hidx. unfold owned_ids.
    rewrite list_elem_of_filter, ids_below_spec, <- (inv_dom s Hinv).
    split.
    + intros [Hp [x Hx]]. exists x. split; [exact Hx|].
      rewrite (session_at_lookup s id x Hx) in Hp. exact Hp.
    + intros (x & Hx & Hp). split; [|eauto].
      rewrite (session_at_lookup s id x Hx). exact Hp.
  - rewrite Hidx. unfold owned_ids, ids_below. apply NoDup_filter.
    apply ids_upto_NoDup.
Qed.

Lemma patient_sessions_index_witness :
  getPatientSessionCount 2
    (fst (run (deploy (mkEnv 1 0))
            [mkTx (mkEnv 2 10) (call_registerPatient 7 5 6);
             mkTx (mkEnv 2 1800) (call_startCounselingSession 1 8)]))
  = Done 1
      (fst (run (deploy (mkEnv 1 0))
              [mkTx (mkEnv 2 10) (call_registerPatient 7 5 6);
               mkTx (mkEnv 2 1800) (call_startCounselingSession 1 8)]))
      [].
Proof.
  destruct (patient_sessions_index
              (fst (run (deploy (mkEnv 1 0))
                      [mkTx (mkEnv 2 10) (call_registerPatient 7 5 6);
                       mkTx (mkEnv 2 1800)
                         (call_startCounselingSession 1 8)]))
              2) as (_ & Hcount & _).
  - apply reachable_run.
    + apply reachable_deploy, wf_env_intro. reflexivity.
    + repeat constructor; apply wf_env_intro; reflexivity.
  - rewrite Hcount. reflexivity.
Defined.

(** X11.  [getSessionStats] returns the next id, the number of sessions
    on file and the time of the last start: [currentSessionId - 1] does
    not underflow and is the number of session records. *)
Theorem session_stats_count (s : Storage) :
  reachable s ->
  getSessionStats s
  = Done (currentSessionId s, N.of_nat (size (sessions s)), lastSessionTime s)
      s [].
Proof.
  intros Hr. pose proof (bk_size s (reachable_bookkeeping s Hr)) as Hsz.
  sol_unfold.
  assert (Hle : (1 <=? currentSessionId s) = true) by (apply N.leb_le; lia).
  rewrite Hle. repeat f_equal. lia.
Qed.

Lemma session_stats_count_witness :
  getSessionStats
    (fst (run (deploy (mkEnv 1 0))
            [mkTx (mkEnv 2 10) (call_registerPatient 7 5 6);
             mkTx (mkEnv 2 1800) (call_startCounselingSession 1 8)]))
  = Done (2, 1, 1800)
      (fst (run (deploy (mkEnv 1 0))
              [mkTx (mkEnv 2 10) (call_registerPatient 7 5 6);
               mkTx (mkEnv 2 1800) (call_startCounselingSession 1 8)]))
      [].
Proof.
  rewrite (session_stats_count
             (fst (run (deploy (mkEnv 1 0))
                     [mkTx (mkEnv 2 10) (call_registerPatient 7 5 6);
                      mkTx (mkEnv 2 1800)
                        (call_startCounselingSession 1 8)]))).
  - reflexivity.
  - apply reachable_run.
    + apply reachable_deploy, wf_env_intro. reflexivity.
    + repeat constructor; apply wf_env_intro; reflexivity.
Defined.

(** X12.  [getSessionAvailability] tells what [startCounselingSession]
    will do: for a registered caller with a valid request, and while ids
    are left, the start goes through exactly when the query answers
    available; when it does not, the time it gives is
    [lastSessionTime + BREAK_DURATION], and a start in a block of that
    time goes through. *)
Theorem availability_predicts_start (s : Storage) (e : Env) (ty sev : N) :
  reachable s -> wf_env e -> registered s (msg_sender e) ->
  type_ok ty = true -> severity_ok sev = true ->
  currentSessionId s < UINT16_MAX ->
  exists available next,
    getSessionAvailability e s
    = Done (available, next, block_timestamp e) s []
    /\ succeeded (snd (transact s
                         (mkTx e (call_startCounselingSession ty sev))))
       = available
    /\ (available = true -> next = block_timestamp e)
    /\ (available = false ->
        next = lastSessionTime s + BREAK_DURATION
        /\ succeeded
             (snd (transact s
                     (mkTx (mkEnv (msg_sender e) next)
                        (call_startCounselingSession ty sev))))
           = true).
Proof.
  intros Hr Hwf Hreg Hty Hsev Hid.
  pose proof (reachable_invariant s Hr) as Hinv.
  assert (Hle : (lastSessionTime s + BREAK_DURATION <=? UINT256_MAX) = true).
  { apply N.leb_le. pose proof (inv_time s Hinv).
    unfold TIMESTAMP_BOUND, BREAK_DURATION, UINT256_MAX in *. lia. }
  assert (Hnext : (currentSessionId s + 1 <=? UINT16_MAX) = true).
  { apply N.leb_le. lia. }
  unfold registered in Hreg.
  exists (lastSessionTime s + BREAK_DURATION <=? block_timestamp e).
  exists (if lastSessionTime s + BREAK_DURATION <=? block_timestamp e
          then block_timestamp e
          else lastSessionTime s + BREAK_DURATION).
  unfold transact. cbn [tx_env tx_call dispatch].
  rewrite !startCounselingSession_cases.
  cbn [msg_sender block_timestamp].
  rewrite Hreg, Hle, Hty, Hsev, Hnext. cbn [negb].
  split; [|split; [|split]].
  - sol_unfold. rewrite Hle.
    destruct (lastSessionTime s + BREAK_DURATION <=? block_timestamp e);
      cbv beta iota; rewrite ?Hle; reflexivity.
  - destruct (lastSessionTime s + BREAK_DURATION <=? block_timestamp e);
      reflexivity.
  - intros ->. reflexivity.
  - intros ->. split; [reflexivity|].
    rewrite N.leb_refl. reflexivity.
Qed.

Lemma availability_predicts_start_witness :
  exists available next,
    getSessionAvailability (mkEnv 2 100)
      (fst (transact (deploy (mkEnv 1 0))
              (mkTx (mkEnv 2 10) (call_registerPatient 7 5 6))))
    = Done (available, next, 100)
        (fst (transact (deploy (mkEnv 1 0))
                (mkTx (mkEnv 2 10) (call_registerPatient 7 5 6)))) []
    /\ available = false /\ next = 1800.
Proof.
  destruct (availability_predicts_start
              (fst (transact (deploy (mkEnv 1 0))
                      (mkTx (mkEnv 2 10) (call_registerPatient 7 5 6))))
              (mkEnv 2 100) 1 8)
    as (available & next & Hq & Hs & _ & Hno).
  - apply reachable_transact.
    + apply reachable_deploy, wf_env_intro. reflexivity.
    + apply wf_env_intro. reflexivity.
  - apply wf_env_intro. reflexivity.
  - reflexivity.
  - reflexivity.
  - reflexivity.
  - apply N.ltb_lt. reflexivity.
  - exists available, next. split; [exact Hq|].
    assert (Ha : available = false) by (rewrite <- Hs; reflexivity).
    split; [exact Ha|]. destruct (Hno Ha) as [Hn _]. rewrite Hn. reflexivity.
Defined.

(** X13.  In a reachable storage every session on file is either active
    or completed, never both and never neither; its owner is a
    registered patient; while it is active its end time is 0 and its
    improvement score is the encryption of 0; and it was started no
    later than [lastSessionTime]. *)
Theorem session_state (s : Storage) (id : N) (x : CounselingSession) :
  reachable s -> sessions s !! id = Some x ->
  sessionActive x = negb (sessionCompleted x)
  /\ patient x <> address_zero
  /\ registered s (patient x)
  /\ (sessionActive x = true ->
      endTime x = 0 /\ improvementScore x = FHE.asEuint8 0)
  /\ startTime x <= lastSessionTime s
  /\ 1 <= id < currentSessionId s.
Proof.
  intros Hr Hx. pose proof (reachable_invariant s Hr) as Hinv.
  pose proof (reachable_bookkeeping s Hr) as Hbk.
  destruct (inv_session s Hinv id x Hx) as [Hxor Hpat].
  split; [exact Hxor|]. split; [exact Hpat|].
  split; [exact (bk_owner s Hbk id x Hx)|].
  split; [exact (bk_open s Hbk id x Hx)|].
  split; [exact (bk_started s Hbk id x Hx)|].
  apply (inv_dom s Hinv). eauto.
Qed.

Lemma session_state_witness :
  sessionActive (new_session (mkEnv 2 1800) 1 8)
  = negb (sessionCompleted (new_session (mkEnv 2 1800) 1 8))
  /\ registered
       (fst (run (deploy (mkEnv 1 0))
               [mkTx (mkEnv 2 10) (call_registerPatient 7 5 6);
                mkTx (mkEnv 2 1800) (call_startCounselingSession 1 8)]))
       2.
Proof.
  destruct (session_state
              (fst (run (deploy (mkEnv 1 0))
                      [mkTx (mkEnv 2 10) (call_registerPatient 7 5 6);
                       mkTx (mkEnv 2 1800)
                         (call_startCounselingSession 1 8)]))
              1 (new_session (mkEnv 2 1800) 1 8))
    as (Hxor & _ & Hreg & _).
  - apply reachable_run.
    + apply reachable_deploy, wf_env_intro. reflexivity.
    + repeat constructor; apply wf_env_intro; reflexivity.
  - reflexivity.
  - split; [exact Hxor|exact Hreg].
Defined.

(** ** The access-control list *)

Lemma acl_transact (s : Storage) (tx : Tx) :
  exists l,
    acl (fst (transact s tx)) = acl s ++ l
    /\ (bookkeeping s ->
        forall h g, In (h, Account g) l ->
                    g = counselor s
                    \/ isActive (profile_at (fst (transact s tx)) g) = true).
Proof.
  step_cases s tx s' log Ht Heff.
  - exists []. rewrite app_nil_r. split; [reflexivity|]. intros _ h g [].
  - destruct Heff as (_ & _ & -> & _). eexists. split; [reflexivity|].
    intros _ h g Hin. unfold levels_grants in Hin. cbn [In] in Hin.
    assert (Hme : isActive (profile_at (after_register e a d st s)
                              (msg_sender e)) = true).
    { unfold profile_at. after_simpl. rewrite lookup_insert_eq. reflexivity. }
    repeat (destruct Hin as [Hin|Hin]; [inversion Hin; subst; auto|]).
    destruct Hin.
  - destruct Heff as (_ & _ & _ & _ & _ & -> & _). eexists.
    split; [reflexivity|].
    intros _ h g Hin. cbn [In] in Hin.
    repeat (destruct Hin as [Hin|Hin]; [inversion Hin; subst; auto|]).
    destruct Hin.
  - destruct Heff as (_ & _ & Hact & _ & -> & _). eexists.
    split; [reflexivity|].
    intros Hbk h g Hin. cbn [In] in Hin.
    pose proof (bk_owner s Hbk id _ (session_at_active s id Hact)) as Hown.
    repeat (destruct Hin as [Hin|Hin]; [inversion Hin; subst; auto|]).
    destruct Hin.
  - destruct Heff as (_ & Hp & _ & _ & -> & _). eexists.
    split; [reflexivity|].
    intros _ h g Hin. cbn [In] in Hin.
    repeat (destruct Hin as [Hin|Hin]; [inversion Hin; subst; auto|]).
    destruct Hin.
  - destruct Heff as (Hme & _ & -> & _). eexists. split; [reflexivity|].
    intros _ h g Hin. unfold levels_grants in Hin. cbn [In] in Hin.
    assert (Hme' : isActive (profile_at (after_update e a d st s)
                               (msg_sender e)) = true).
    { unfold profile_at. after_simpl. rewrite lookup_insert_eq. exact Hme. }
    repeat (destruct Hin as [Hin|Hin]; [inversion Hin; subst; auto|]).
    destruct Hin.
Qed.

(** X15.  The contract grants decryption to no stranger: every account
    that holds a grant is the counselor or a registered patient. *)
Theorem grantees_known (s : Storage) (h : euint8) (g : address) :
  reachable s -> granted s h (Account g) ->
  g = counselor s \/ registered s g.
Proof.
  intros Hr. revert h g.
  induction Hr as [e He|s tx Hr IH Hwf]; intros h g Hg.
  - destruct Hg.
  - unfold granted in Hg.
    destruct (acl_transact s tx) as (l & Hl & Hnew).
    rewrite Hl in Hg. apply in_app_or in Hg. rewrite counselor_transact.
    destruct Hg as [Hold|Hin].
    + destruct (IH h g Hold) as [Hc|Hreg]; [left; exact Hc|].
      right. apply registered_transact, Hreg.
    + apply (Hnew (reachable_bookkeeping s Hr) h g Hin).
Qed.

Lemma grantees_known_witness :
  2 = counselor (fst (transact (deploy (mkEnv 1 0))
                        (mkTx (mkEnv 2 10) (call_registerPatient 7 5 6))))
  \/ registered (fst (transact (deploy (mkEnv 1 0))
                        (mkTx (mkEnv 2 10) (call_registerPatient 7 5 6))))
       2.
Proof.
  apply (grantees_known
           (fst (transact (deploy (mkEnv 1 0))
                   (mkTx (mkEnv 2 10) (call_registerPatient 7 5 6))))
           (FHE.asEuint8 7) 2).
  - apply reachable_transact.
    + apply reachable_deploy, wf_env_intro. reflexivity.
    + apply wf_env_intro. reflexivity.
  - unfold granted. vm_compute. do 3 right. left. reflexivity.
Defined.

Lemma granted_step (s : Storage) (tx : Tx) (h : euint8) (g : Grantee) :
  granted s h g -> granted (fst (transact s tx)) h g.
Proof.
  unfold granted. destruct (acl_transact s tx) as (l & Hl & _).
  rewrite Hl. intros Hg. apply in_or_app. left. exact Hg.
Qed.

Lemma profile_granted_transact (s : Storage) (tx : Tx) (a : address) :
  (isActive (profile_at s a) = true -> profile_granted s a) ->
  isActive (profile_at (fst (transact s tx)) a) = true ->
  profile_granted (fst (transact s tx)) a.
Proof.
  intros Hold Ha.
  assert (Hkeep : profile_at (fst (transact s tx)) a = profile_at s a ->
                  profile_granted (fst (transact s tx)) a).
  { intros Hsame. rewrite Hsame in Ha. specialize (Hold Ha).
    unfold profile_granted. rewrite Hsame, counselor_transact.
    intros h Hh. destruct (Hold h Hh) as (H1 & H2 & H3).
    repeat split; apply granted_step; assumption. }
  assert (Hfresh : forall e x y z s0,
            acl (fst (transact s tx))
            = acl s0 ++ levels_grants x y z (msg_sender e) (counselor s) ->
            a = msg_sender e ->
            anxietyLevel (profile_at (fst (transact s tx)) a) = FHE.asEuint8 x ->
            depressionLevel (profile_at (fst (transact s tx)) a)
            = FHE.asEuint8 y ->
            stressLevel (profile_at (fst (transact s tx)) a) = FHE.asEuint8 z ->
            profile_granted (fst (transact s tx)) a).
  { intros e x y z s0 Hacl -> Hx Hy Hz h Hh.
    unfold granted. rewrite Hacl, counselor_transact, Hx, Hy, Hz in *.
    unfold levels_grants.
    repeat split; apply in_or_app; right;
      destruct Hh as [-> | [-> | ->]]; cbn; auto 12. }
  revert Ha Hkeep Hfresh.
  step_cases s tx s' log Ht Heff; intros Ha Hkeep Hfresh;
    try (apply Hkeep; reflexivity).
  - destruct Heff as (_ & _ & -> & _).
    destruct (decide (a = msg_sender e)) as [-> | Hne].
    + apply (Hfresh e a0 d st s); try reflexivity;
        unfold profile_at; after_simpl; rewrite lookup_insert_eq; reflexivity.
    + apply Hkeep. unfold profile_at. after_simpl.
      rewrite lookup_insert_ne by auto. reflexivity.
  - destruct Heff as (_ & _ & _ & _ & _ & -> & _). apply Hkeep. reflexivity.
  - destruct Heff as (_ & _ & _ & _ & -> & _). apply Hkeep. reflexivity.
  - destruct Heff as (_ & _ & _ & _ & -> & _). apply Hkeep. reflexivity.
  - destruct Heff as (_ & _ & -> & _).
    destruct (decide (a = msg_sender e)) as [-> | Hne].
    + apply (Hfresh e a0 d st s); try reflexivity;
        unfold profile_at; after_simpl; rewrite lookup_insert_eq; reflexivity.
    + apply Hkeep. unfold profile_at. after_simpl.
      rewrite lookup_insert_ne by auto. reflexivity.
Qed.

(** X16.  The three encrypted levels of every registered patient, as
    they stand, can be used by the contract and decrypted by the patient
    and by the counselor: each carries the grants of [FHE.allowThis] and
    of [FHE.allow] to both, also after any number of updates. *)
Theorem profile_handles_granted (s : Storage) (a : address) :
  reachable s -> registered s a -> profile_granted s a.
Proof.
  intros Hr. induction Hr as [e He|s tx Hr IH Hwf]; intros Ha.
  - discriminate Ha.
  - apply profile_granted_transact; assumption.
Qed.

Lemma profile_handles_granted_witness :
  profile_granted
    (fst (run (deploy (mkEnv 1 0))
            [mkTx (mkEnv 2 10) (call_registerPatient 7 5 6);
             mkTx (mkEnv 2 20) (call_updateMentalHealthLevels 1 2 3)]))
    2.
Proof.
  apply profile_handles_granted.
  - apply reachable_run.
    + apply reachable_deploy, wf_env_intro. reflexivity.
    + repeat constructor; apply wf_env_intro; reflexivity.
  - reflexivity.
Defined.

(** ** Events and storage *)

Lemma events_of_cons (r : Receipt) (rs : list Receipt) :
  events_of (r :: rs) = events_of [r] ++ events_of rs.
Proof. unfold events_of. cbn [flat_map]. rewrite app_nil_r. reflexivity. Qed.

Lemma alert_log_no_registration (e : Env) (x y z : N) (a : address) (t : N) :
  ~ In (PatientRegistered a t) (alert_log e x y z).
Proof.
  unfold alert_log. destruct (emergency x y z); cbn; [|tauto].
  intros [H|[]]. discriminate H.
Qed.

Lemma registered_transact_iff (s : Storage) (tx : Tx) (a : address) :
  registered (fst (transact s tx)) a
  <-> registered s a
      \/ exists t, In (PatientRegistered a t)
                     (events_of [snd (transact s tx)]).
Proof.
  unfold registered.
  step_cases s tx s' log Ht Heff; cbn [events_of flat_map app].
  - split; [auto|]. intros [H|[t []]]. exact H.
  - destruct Heff as (_ & _ & -> & ->). rewrite app_nil_r.
    unfold profile_at. after_simpl. rewrite lookup_insert. case_decide.
    + subst. cbn. split; [|reflexivity]. intros _. right.
      exists (block_timestamp e). apply in_or_app. right. left. reflexivity.
    + split; [auto|]. intros [H'|[t Hin]]; [exact H'|].
      apply in_app_or in Hin. destruct Hin as [Hin|[Hin|[]]].
      * destruct (alert_log_no_registration _ _ _ _ _ _ Hin).
      * inversion Hin. congruence.
  - destruct Heff as (_ & _ & _ & _ & _ & -> & ->).
    split; [auto|]. intros [H|[t [Hin|[]]]]; [exact H|discriminate Hin].
  - destruct Heff as (_ & _ & _ & _ & -> & ->).
    split; [auto|]. intros [H|[t [Hin|[]]]]; [exact H|discriminate Hin].
  - destruct Heff as (_ & _ & _ & _ & -> & ->).
    split; [auto|]. intros [H|[t [Hin|[]]]]; [exact H|discriminate Hin].
  - destruct Heff as (Hme & _ & -> & ->). rewrite app_nil_r.
    assert (Hsame : isActive (profile_at (after_update e a0 d st s) a)
                    = isActive (profile_at s a)).
    { unfold profile_at. after_simpl. rewrite lookup_insert.
      case_decide; subst; reflexivity. }
    rewrite Hsame. split; [auto|]. intros [H|[t Hin]]; [exact H|].
    destruct (alert_log_no_registration _ _ _ _ _ _ Hin).
Qed.

(** X17.  An address is registered exactly when the contract has emitted
    [PatientRegistered] for it: the event is the record of the one
    registration, and no profile comes about without it. *)
Theorem registered_iff_event (e : Env) (txs : list Tx) (a : address) :
  registered (fst (run (deploy e) txs)) a
  <-> exists t, In (PatientRegistered a t)
                  (events_of (snd (run (deploy e) txs))).
Proof.
  assert (Hrun : forall s,
            registered (fst (run s txs)) a
            <-> registered s a
                \/ exists t, In (PatientRegistered a t)
                               (events_of (snd (run s txs)))).
  { induction txs as [|tx txs IH]; intros s.
    - cbn. split; [auto|]. intros [H|[t []]]. exact H.
    - rewrite run_cons. cbn [fst snd]. rewrite events_of_cons.
      rewrite IH, registered_transact_iff. split.
      + intros [[H|[t Ht]]|[t Ht]]; [auto| |];
          right; exists t; apply in_or_app; auto.
      + intros [H|[t Ht]]; [auto|].
        apply in_app_or in Ht. destruct Ht; eauto. }
  rewrite Hrun. split; [|auto]. intros [H|H]; [discriminate H|exact H].
Qed.

Lemma completed_ids_cons (r : Receipt) (rs : list Receipt) :
  completed_ids (r :: rs) = completed_ids [r] ++ completed_ids rs.
Proof.
  unfold completed_ids. rewrite events_of_cons, flat_map_app. reflexivity.
Qed.

Lemma alert_log_no_completion (e : Env) (x y z : N) :
  flat_map completed_id (alert_log e x y z) = [].
Proof. unfold alert_log. destruct (emergency x y z); reflexivity. Qed.

Lemma completed_transact (s : Storage) (tx : Tx) (id : N) :
  invariant s ->
  (sessionCompleted (session_at (fst (transact s tx)) id) = true
   <-> sessionCompleted (session_at s id) = true
       \/ In id (completed_ids [snd (transact s tx)]))
  /\ (In id (completed_ids [snd (transact s tx)]) ->
      sessionCompleted (session_at s id) = false)
  /\ NoDup (completed_ids [snd (transact s tx)]).
Proof.
  intros Hinv. unfold completed_ids.
  step_cases s tx s' log Ht Heff; cbn [events_of flat_map app];
    rewrite ?app_nil_r.
  - split; [|split]; [|intros []|constructor].
    split; [auto|]. intros [H|[]]. exact H.
  - destruct Heff as (_ & _ & -> & ->).
    rewrite flat_map_app, alert_log_no_completion. cbn.
    split; [|split]; [|intros []|constructor].
    split; [auto|]. intros [H|[]]. exact H.
  - destruct Heff as (_ & _ & _ & _ & _ & -> & ->). cbn.
    split; [|split]; [|intros []|constructor].
    unfold session_at. after_simpl. rewrite lookup_insert. case_decide.
    + subst. cbn.
      assert (Hnone : sessions s !! currentSessionId s = None).
      { destruct (sessions s !! currentSessionId s) eqn:Hx; [|reflexivity].
        assert (Hs : is_Some (sessions s !! currentSessionId s)) by eauto.
        apply (inv_dom s Hinv) in Hs. lia. }
      rewrite Hnone. cbn. split; [auto|]. intros [Hc|[]]. exact Hc.
    + split; [auto|]. intros [Hc|[]]. exact Hc.
  - destruct Heff as (_ & _ & Hact & Hcomp & -> & ->). cbn.
    split; [|split].
    + unfold session_at at 1. after_simpl. rewrite lookup_insert.
      case_decide.
      * subst. cbn. split; auto.
      * split; [auto|]. intros [H'|[H'|[]]]; [exact H'|congruence].
    + intros [<-|[]]. exact Hcomp.
    + repeat constructor. intros H. inversion H.
  - destruct Heff as (_ & _ & _ & _ & -> & ->). cbn.
    split; [|split]; [|intros []|constructor].
    split; [auto|]. intros [H|[]]. exact H.
  - destruct Heff as (_ & _ & -> & ->).
    rewrite alert_log_no_completion.
    split; [|split]; [|intros []|constructor].
    split; [auto|]. intros [H|[]]. exact H.
Qed.

Lemma completed_run (txs : list Tx) (s : Storage) (id : N) :
  reachable s -> Forall (fun tx => wf_env (tx_env tx)) txs ->
  (sessionCompleted (session_at (fst (run s txs)) id) = true
   <-> sessionCompleted (session_at s id) = true
       \/ In id (completed_ids (snd (run s txs))))
  /\ (In id (completed_ids (snd (run s txs))) ->
      sessionCompleted (session_at s id) = false).
Proof.
  intros Hr Hwf. revert s Hr.
  induction Hwf as [|tx txs Htx Hwf IH]; intros s Hr.
  - cbn. split; [|intros []]. split; [auto|]. intros [H|[]]. exact H.
  - rewrite run_cons. cbn [fst snd]. rewrite completed_ids_cons.
    destruct (completed_transact s tx id (reachable_invariant s Hr))
      as (Hstep & Hnew & _).
    destruct (IH (fst (transact s tx))) as (Hrest & Hlater).
    { apply reachable_transact; assumption. }
    split.
    + rewrite Hrest, Hstep. rewrite in_app_iff. tauto.
    + intros Hin. apply in_app_or in Hin. destruct Hin as [Hin|Hin].
      * exact (Hnew Hin).
      * specialize (Hlater Hin).
        destruct (sessionCompleted (session_at s id)) eqn:Hc; [|reflexivity].
        assert (Hc' : sessionCompleted
                        (session_at (fst (transact s tx)) id) = true)
          by (apply Hstep; auto).
        congruence.
Qed.

(** X18.  [SessionCompleted] is emitted once per session at most, and
    the sessions it has been emitted for are exactly the sessions marked
    completed in the storage. *)
Theorem completion_events (e : Env) (txs : list Tx) :
  wf_env e -> Forall (fun tx => wf_env (tx_env tx)) txs ->
  NoDup (completed_ids (snd (run (deploy e) txs)))
  /\ forall id,
       In id (completed_ids (snd (run (deploy e) txs)))
       <-> sessionCompleted (session_at (fst (run (deploy e) txs)) id) = true.
Proof.
  intros He Hwf. split.
  - assert (Hr : reachable (deploy e)) by (apply reachable_deploy, He).
    revert Hr. generalize (deploy e). intros s Hr. revert s Hr.
    induction Hwf as [|tx txs Htx Hwf IH]; intros s Hr; [constructor|].
    rewrite run_cons. cbn [fst snd]. rewrite completed_ids_cons.
    destruct (completed_transact s tx 0 (reachable_invariant s Hr))
      as (_ & _ & Hnd).
    assert (Hr' : reachable (fst (transact s tx)))
      by (apply reachable_transact; assumption).
    apply NoDup_app. split; [exact Hnd|]. split; [|apply IH, Hr'].
    intros id Hin Hin'. apply list_elem_of_In in Hin, Hin'.
    destruct (completed_transact s tx id (reachable_invariant s Hr))
      as (Hstep & _ & _).
    destruct (completed_run txs (fst (transact s tx)) id Hr' Hwf)
      as (_ & Hlater).
    specialize (Hlater Hin').
    assert (Hc : sessionCompleted
                   (session_at (fst (transact s tx)) id) = true)
      by (apply Hstep; auto).
    congruence.
  - intros id.
    destruct (completed_run txs (deploy e) id) as (Hiff & _);
      [apply reachable_deploy, He|exact Hwf|].
    rewrite Hiff. split; [auto|]. intros [H|H]; [discriminate H|exact H].
Qed.

Lemma completion_events_witness :
  NoDup (completed_ids
           (snd (run (deploy (mkEnv 1 0))
                   [mkTx (mkEnv 2 10) (call_registerPatient 7 5 6);
                    mkTx (mkEnv 2 1800) (call_startCounselingSession 1 8);
                    mkTx (mkEnv 2 1900) (call_completeSession 1 7);
                    mkTx (mkEnv 1 2000) (call_completeSession 1 3)]))).
Proof.
  apply (completion_events (mkEnv 1 0)
           [mkTx (mkEnv 2 10) (call_registerPatient 7 5 6);
            mkTx (mkEnv 2 1800) (call_startCounselingSession 1 8);
            mkTx (mkEnv 2 1900) (call_completeSession 1 7);
            mkTx (mkEnv 1 2000) (call_completeSession 1 3)]).
  - apply wf_env_intro. reflexivity.
  - repeat constructor; apply wf_env_intro; reflexivity.
Defined.

(** ** Writing, then reading *)

(** X19.  What [getSessionInfo] shows follows the life of the session:
    right after a start that went through, the new id reads active, not
    completed, started now, not ended, owned by the caller; right after a
    completion that went through, it reads not active, completed, ended
    now, with start time and owner as before. *)
Theorem session_info_lifecycle (s s1 : Storage) (e : Env)
    (log : list Event) :
  (forall ty sev,
     transact s (mkTx e (call_startCounselingSession ty sev))
     = (s1, Succeeded log) ->
     getSessionInfo (currentSessionId s) s1
     = Done (true, false, block_timestamp e, 0, msg_sender e) s1 [])
  /\ (forall id score,
        transact s (mkTx e (call_completeSession id score))
        = (s1, Succeeded log) ->
        getSessionInfo id s1
        = Done (false, true, startTime (session_at s id), block_timestamp e,
                patient (session_at s id)) s1 []).
Proof.
  split.
  - intros ty sev Ht.
    destruct (transact_inv s (mkTx e (call_startCounselingSession ty sev)))
      as [[f Hf]|(s' & log' & Ht' & Heff)]; [congruence|].
    rewrite Ht in Ht'. inversion Ht'; subst s' log'.
    cbn [step_effect tx_env tx_call] in Heff.
    destruct Heff as (_ & _ & _ & _ & _ & -> & _).
    sol_unfold. unfold session_at. after_simpl.
    rewrite lookup_insert_eq. reflexivity.
  - intros id score Ht.
    destruct (transact_inv s (mkTx e (call_completeSession id score)))
      as [[f Hf]|(s' & log' & Ht' & Heff)]; [congruence|].
    rewrite Ht in Ht'. inversion Ht'; subst s' log'.
    cbn [step_effect tx_env tx_call] in Heff.
    destruct Heff as (_ & _ & _ & _ & -> & _).
    assert (Hs : session_at (after_complete e id score s) id
                 = completed_session (session_at s id) score
                     (block_timestamp e)).
    { unfold session_at at 1. after_simpl. rewrite lookup_insert_eq.
      reflexivity. }
    sol_unfold. rewrite Hs. reflexivity.
Qed.

Lemma session_info_lifecycle_witness :
  getSessionInfo 1
    (fst (transact (fst (transact (deploy (mkEnv 1 0))
                           (mkTx (mkEnv 2 10) (call_registerPatient 7 5 6))))
            (mkTx (mkEnv 2 1800) (call_startCounselingSession 1 8))))
  = Done (true, false, 1800, 0, 2)
      (fst (transact (fst (transact (deploy (mkEnv 1 0))
                             (mkTx (mkEnv 2 10) (call_registerPatient 7 5 6))))
              (mkTx (mkEnv 2 1800) (call_startCounselingSession 1 8))))
      [].
Proof.
  destruct (session_info_lifecycle
              (fst (transact (deploy (mkEnv 1 0))
                      (mkTx (mkEnv 2 10) (call_registerPatient 7 5 6))))
              (fst (transact
                      (fst (transact (deploy (mkEnv 1 0))
                              (mkTx (mkEnv 2 10)
                                 (call_registerPatient 7 5 6))))
                      (mkTx (mkEnv 2 1800) (call_startCounselingSession 1 8))))
              (mkEnv 2 1800) [SessionStarted 1 2 1800]) as (Hstart & _).
  apply (Hstart 1 8). vm_compute. reflexivity.
Defined.

(** X20.  Updates of the levels overwrite and do not pile up: after two
    updates by a patient, the profiles are what the second update alone
    would have left, with the registration time of the first
    registration; only the access-control list remembers the first. *)
Theorem update_last_wins (s : Storage) (e1 e2 : Env) (a d st a' d' st' : N) :
  msg_sender e2 = msg_sender e1 ->
  registered s (msg_sender e1) ->
  levels_ok a d st = true -> levels_ok a' d' st' = true ->
  patientProfiles
    (fst (run s [mkTx e1 (call_updateMentalHealthLevels a d st);
                 mkTx e2 (call_updateMentalHealthLevels a' d' st')]))
  = patientProfiles
      (fst (run s [mkTx e2 (call_updateMentalHealthLevels a' d' st')]))
  /\ profile_at
       (fst (run s [mkTx e1 (call_updateMentalHealthLevels a d st);
                    mkTx e2 (call_updateMentalHealthLevels a' d' st')]))
       (msg_sender e1)
     = mkPatientProfile (FHE.asEuint8 a') (FHE.asEuint8 d') (FHE.asEuint8 st')
         true (registrationTime (profile_at s (msg_sender e1))).
Proof.
  intros Hsame Hreg Hok Hok'. unfold registered in Hreg.
  assert (H1 : transact s (mkTx e1 (call_updateMentalHealthLevels a d st))
               = (after_update e1 a d st s, Succeeded (alert_log e1 a d st))).
  { apply transact_dispatch_done. cbn [dispatch].
    rewrite updateMentalHealthLevels_cases, Hreg, Hok. reflexivity. }
  assert (Hreg1 : isActive (profile_at (after_update e1 a d st s)
                              (msg_sender e2)) = true).
  { rewrite Hsame. unfold profile_at. after_simpl.
    rewrite lookup_insert_eq. exact Hreg. }
  assert (H2 : transact (after_update e1 a d st s)
                 (mkTx e2 (call_updateMentalHealthLevels a' d' st'))
               = (after_update e2 a' d' st' (after_update e1 a d st s),
                  Succeeded (alert_log e2 a' d' st'))).
  { apply transact_dispatch_done. cbn [dispatch].
    rewrite updateMentalHealthLevels_cases, Hreg1, Hok'. reflexivity. }
  assert (H3 : transact s (mkTx e2 (call_updateMentalHealthLevels a' d' st'))
               = (after_update e2 a' d' st' s,
                  Succeeded (alert_log e2 a' d' st'))).
  { apply transact_dispatch_done. cbn [dispatch].
    rewrite updateMentalHealthLevels_cases, Hsame, Hreg, Hok'. reflexivity. }
  assert (R2 : fst (run s [mkTx e2 (call_updateMentalHealthLevels a' d' st')])
               = after_update e2 a' d' st' s).
  { rewrite run_cons, H3. reflexivity. }
  assert (R12 : fst (run s [mkTx e1 (call_updateMentalHealthLevels a d st);
                            mkTx e2 (call_updateMentalHealthLevels a' d' st')])
                = after_update e2 a' d' st' (after_update e1 a d st s)).
  { rewrite run_cons, H1. cbn [fst]. rewrite run_cons, H2. reflexivity. }
  rewrite R2, R12.
  assert (P1 : profile_at (after_update e1 a d st s) (msg_sender e1)
               = mkPatientProfile (FHE.asEuint8 a) (FHE.asEuint8 d)
                   (FHE.asEuint8 st) true
                   (registrationTime (profile_at s (msg_sender e1)))).
  { unfold profile_at at 1. after_simpl. rewrite lookup_insert_eq, Hreg.
    reflexivity. }
  assert (PP : forall s0,
            patientProfiles (after_update e2 a' d' st' s0)
            = <[msg_sender e1 :=
                  mkPatientProfile (FHE.asEuint8 a') (FHE.asEuint8 d')
                    (FHE.asEuint8 st')
                    (isActive (profile_at s0 (msg_sender e1)))
                    (registrationTime (profile_at s0 (msg_sender e1)))]>
                (patientProfiles s0)).
  { intros s0. rewrite <- Hsame. reflexivity. }
  assert (PP1 : exists p, patientProfiles (after_update e1 a d st s)
                          = <[msg_sender e1 := p]> (patientProfiles s))
    by (eexists; reflexivity).
  destruct PP1 as [p PP1].
  split.
  - rewrite !PP, P1, PP1, insert_insert_eq, Hreg. reflexivity.
  - unfold profile_at at 1. rewrite PP, lookup_insert_eq, P1. reflexivity.
Qed.

Lemma update_last_wins_witness :
  profile_at
    (fst (run (fst (transact (deploy (mkEnv 1 0))
                      (mkTx (mkEnv 2 10) (call_registerPatient 7 5 6))))
            [mkTx (mkEnv 2 20) (call_updateMentalHealthLevels 1 2 3);
             mkTx (mkEnv 2 30) (call_updateMentalHealthLevels 4 5 6)]))
    2
  = mkPatientProfile (FHE.asEuint8 4) (FHE.asEuint8 5) (FHE.asEuint8 6)
      true 10.
Proof.
  destruct (update_last_wins
              (fst (transact (deploy (mkEnv 1 0))
                      (mkTx (mkEnv 2 10) (call_registerPatient 7 5 6))))
              (mkEnv 2 20) (mkEnv 2 30) 1 2 3 4 5 6) as (_ & Hp).
  - reflexivity.
  - reflexivity.
  - reflexivity.
  - reflexivity.
  - exact Hp.
Defined.

(** ** Capacity *)

(** X21.  The 16-bit session counter bounds the contract: it never holds
    more than 65534 sessions, and once it holds that many every
    [startCounselingSession] reverts, whoever calls and whenever. *)
Theorem session_capacity (s : Storage) :
  reachable s ->
  N.of_nat (size (sessions s)) <= 65534
  /\ (N.of_nat (size (sessions s)) = 65534 ->
      forall e ty sev,
        succeeded (snd (transact s
                          (mkTx e (call_startCounselingSession ty sev))))
        = false).
Proof.
  intros Hr. pose proof (reachable_invariant s Hr) as Hinv.
  pose proof (bk_size s (reachable_bookkeeping s Hr)) as Hsz.
  pose proof (inv_id_hi s Hinv) as Hhi. unfold UINT16_MAX in Hhi.
  split; [lia|].
  intros Hfull e ty sev.
  unfold transact. cbn [tx_env tx_call dispatch].
  rewrite startCounselingSession_cases.
  assert (Hover : (currentSessionId s + 1 <=? UINT16_MAX) = false).
  { apply N.leb_gt. unfold UINT16_MAX. lia. }
  rewrite Hover. cbn [negb]. by_cases; reflexivity.
Qed.

Lemma session_capacity_witness :
  N.of_nat (size (sessions full_book)) = 65534
  /\ succeeded
       (snd (transact full_book
               (mkTx (mkEnv 2 (BREAK_DURATION * 65535))
                  (call_startCounselingSession 1 8))))
     = false.
Proof.
  destruct full_book_state as (Hr & Hid & _ & _).
  destruct (session_capacity full_book Hr) as (_ & Hfull).
  pose proof (bk_size full_book (reachable_bookkeeping full_book Hr)) as Hsz.
  rewrite Hid in Hsz. unfold UINT16_MAX in Hsz.
  assert (Hsize : N.of_nat (size (sessions full_book)) = 65534) by lia.
  split; [exact Hsize|]. apply Hfull. exact Hsize.
Defined.

(** ** Cooldown after a start *)

(** Once a session has been started, [lastSessionTime] is the start time
    of the session with the highest id, the last one started. *)
Lemma last_start_recorded (s : Storage) :
  reachable s -> 1 < currentSessionId s ->
  exists x,
    sessions s !! (currentSessionId s - 1) = Some x
    /\ startTime x = lastSessionTime s.
Proof.
  induction 1 as [e He|s tx Hr IH Hwf]; [cbn; lia|].
  pose proof (reachable_invariant s Hr) as Hinv.
  destruct (transact_inv s tx) as [[f Hf]|(s' & log & Ht & Heff)].
  { rewrite Hf. exact IH. }
  rewrite Ht. cbn [fst]. clear Ht.
  destruct tx as [e c]. cbn [tx_env tx_call] in *.
  destruct c as [a d st|ty sev|id score|p n prio|a d st];
    cbn [step_effect] in Heff.
  - destruct Heff as (_ & _ & -> & _). exact IH.
  - destruct Heff as (_ & _ & _ & _ & _ & -> & _). intros _.
    exists (new_session e ty sev). after_simpl.
    replace (currentSessionId s + 1 - 1) with (currentSessionId s) by lia.
    rewrite lookup_insert_eq. split; reflexivity.
  - destruct Heff as (_ & _ & Hact & _ & -> & _). after_simpl.
    intros Hid. destruct (IH Hid) as (x & Hx & Hst).
    rewrite lookup_insert. case_decide.
    + subst id. rewrite (session_at_lookup s _ x Hx).
      eexists. split; [reflexivity|]. exact Hst.
    + exists x. split; assumption.
  - destruct Heff as (_ & _ & _ & _ & -> & _). exact IH.
  - destruct Heff as (_ & _ & -> & _). exact IH.
Qed.

(** C2, amended.  In a reachable storage in which a session has been
    started, [lastSessionTime] is the time of the most recent start that
    went through, and for a caller with an active profile: a
    [startCounselingSession] before [lastSessionTime + BREAK_DURATION]
    (1800 seconds) is refused with "No session slots available", whatever
    its arguments; at or after it, with a session type in 1..4 and a
    severity in 1..10, and while [currentSessionId] is below 65535, it
    goes through.  Every start that goes through sets [lastSessionTime]
    to the block timestamp. *)
Theorem cooldown_since_last_start (s : Storage) (e : Env) (ty sev : N) :
  reachable s -> wf_env e -> 1 < currentSessionId s ->
  registered s (msg_sender e) ->
  (exists x,
     sessions s !! (currentSessionId s - 1) = Some x
     /\ startTime x = lastSessionTime s)
  /\ (block_timestamp e < lastSessionTime s + BREAK_DURATION ->
      transact s (mkTx e (call_startCounselingSession ty sev))
      = (s, Failed (Error "No session slots available")))
  /\ (lastSessionTime s + BREAK_DURATION <= block_timestamp e ->
      type_ok ty = true -> severity_ok sev = true ->
      currentSessionId s < UINT16_MAX ->
      transact s (mkTx e (call_startCounselingSession ty sev))
      = (after_start e ty sev s,
         Succeeded [SessionStarted (currentSessionId s) (msg_sender e)
                      (block_timestamp e)]))
  /\ (forall s' log,
        transact s (mkTx e (call_startCounselingSession ty sev))
        = (s', Succeeded log) ->
        lastSessionTime s' = block_timestamp e
        /\ lastSessionTime s + BREAK_DURATION <= block_timestamp e)
  /\ BREAK_DURATION = 1800
  /\ classify (Error "No session slots available") = Some NoSlotAvailable.
Proof.
  intros Hr Hwf Hid Hreg.
  destruct (start_by_registered s e ty sev Hr Hwf Hreg)
    as (Hearly & Hlate & Hset & Hbreak).
  split; [exact (last_start_recorded s Hr Hid)|].
  split; [exact Hearly|]. split; [exact Hlate|]. split; [exact Hset|].
  split; [exact Hbreak|reflexivity].
Qed.

Lemma cooldown_since_last_start_witness :
  snd (transact
         (fst (run (deploy (mkEnv 1 0))
                 [mkTx (mkEnv 2 10) (call_registerPatient 7 5 6);
                  mkTx (mkEnv 2 1800) (call_startCounselingSession 1 8)]))
         (mkTx (mkEnv 2 3599) (call_startCounselingSession 2 6)))
  = Failed (Error "No session slots available")
  /\ snd (transact
            (fst (run (deploy (mkEnv 1 0))
                    [mkTx (mkEnv 2 10) (call_registerPatient 7 5 6);
                     mkTx (mkEnv 2 1800) (call_startCounselingSession 1 8)]))
            (mkTx (mkEnv 2 3600) (call_startCounselingSession 2 6)))
     = Succeeded [SessionStarted 2 2 3600].
Proof.
  set (s2 := fst (run (deploy (mkEnv 1 0))
                    [mkTx (mkEnv 2 10) (call_registerPatient 7 5 6);
                     mkTx (mkEnv 2 1800) (call_startCounselingSession 1 8)])).
  assert (Hr : reachable s2).
  { apply reachable_run.
    - apply reachable_deploy, wf_env_intro. reflexivity.
    - repeat constructor; apply wf_env_intro; reflexivity. }
  split.
  - destruct (cooldown_since_last_start s2 (mkEnv 2 3599) 2 6)
      as (_ & Hearly & _).
    + exact Hr.
    + apply wf_env_intro. reflexivity.
    + apply N.ltb_lt. reflexivity.
    + reflexivity.
    + rewrite Hearly; [reflexivity|]. apply N.ltb_lt. reflexivity.
  - destruct (cooldown_since_last_start s2 (mkEnv 2 3600) 2 6)
      as (_ & _ & Hlate & _).
    + exact Hr.
    + apply wf_env_intro. reflexivity.
    + apply N.ltb_lt. reflexivity.
    + reflexivity.
    + rewrite Hlate; [reflexivity| | | |].
      * apply N.leb_le. reflexivity.
      * reflexivity.
      * reflexivity.
      * apply N.ltb_lt. reflexivity.
Defined.
